(** * Task Management API: a shallow embedding of [main.py]

    The development follows the source file top to bottom: the two enums,
    the three pydantic models, the ordered dictionary [tasks_db] with its
    seed data, the request handlers, and a thin request layer that performs
    the validation declared by the models' [Field]s and the [Query]
    parameters before a handler runs.

    Conventions.
    - Python [str] is [string]; a character is one [ascii] (the code points
      U+0000..U+00FF), and [len] counts characters.
    - A naive [datetime] is a point of [Z]; only the order of timestamps is
      observed by the program.
    - [datetime.now()] and [uuid.uuid4().hex[:8]] are readings of the
      environment: every handler that performs them takes the reading as an
      argument.
    - A handler is a computation over the store that either returns a value
      or raises; raising does not roll the store back.
    - The embedding ends where a handler returns: the rendering of the
      returned object as JSON by the framework is not part of it. *)

From Stdlib Require Import String Ascii List ZArith Lia Bool Arith.
Import ListNotations.

Local Open Scope string_scope.
Local Open Scope list_scope.

(* ===================================================================== *)
(** ** Python built-ins used by the handlers *)
(* ===================================================================== *)

Module Py.

(** [c.lower()] for a character of the 8-bit range: the ASCII capitals and
    the Latin-1 capitals (U+00C0..U+00DE but the multiplication sign)
    move up by 32. *)
Definition lower_char (c : ascii) : ascii :=
  let n := nat_of_ascii c in
  if (((65 <=? n) && (n <=? 90))
      || ((192 <=? n) && (n <=? 214))
      || ((216 <=? n) && (n <=? 222)))%nat
  then ascii_of_nat (n + 32) else c.

(** [s.lower()] *)
Fixpoint lower (s : string) : string :=
  match s with
  | EmptyString => EmptyString
  | String c r => String (lower_char c) (lower r)
  end.

(** [h.startswith(n)] *)
Fixpoint startswith (n h : string) : bool :=
  match n, h with
  | EmptyString, _ => true
  | String _ _, EmptyString => false
  | String a n', String b h' => Ascii.eqb a b && startswith n' h'
  end.

(** [n in h] for two strings: [n] occurs in [h] as a contiguous run. *)
Fixpoint str_in (n h : string) : bool :=
  startswith n h ||
  match h with
  | EmptyString => false
  | String _ h' => str_in n h'
  end.

(** Truth value of a string: the empty string is falsy. *)
Definition truthy (s : string) : bool :=
  match s with EmptyString => false | String _ _ => true end.

(** [len(s)] *)
Definition len (s : string) : Z := Z.of_nat (String.length s).

(** Index adjustment of a slice bound against a sequence of length [n]:
    a negative bound counts from the end, and the result is clamped to
    [0..n]. *)
Definition adjust (n i : Z) : Z :=
  if (i <? 0)%Z then Z.max (i + n) 0 else Z.min i n.

(** [l[start:stop]] *)
Definition slice {A : Type} (l : list A) (start stop : Z) : list A :=
  let n := Z.of_nat (length l) in
  let lo := adjust n start in
  let hi := adjust n stop in
  firstn (Z.to_nat (hi - lo)) (skipn (Z.to_nat lo) l).

End Py.

(* ===================================================================== *)
(** ** Enums and models *)
(* ===================================================================== *)

Inductive TaskStatus : Type := PENDING | IN_PROGRESS | COMPLETED | CANCELLED.

Inductive TaskPriority : Type := LOW | MEDIUM | HIGH | URGENT.

Module TaskStatus_.
Definition value (s : TaskStatus) : string :=
  match s with
  | PENDING => "pending"
  | IN_PROGRESS => "in-progress"
  | COMPLETED => "completed"
  | CANCELLED => "cancelled"
  end.

(** Iteration order of [for s in TaskStatus]. *)
Definition members : list TaskStatus :=
  [PENDING; IN_PROGRESS; COMPLETED; CANCELLED].

Definition eqb (a b : TaskStatus) : bool :=
  match a, b with
  | PENDING, PENDING | IN_PROGRESS, IN_PROGRESS
  | COMPLETED, COMPLETED | CANCELLED, CANCELLED => true
  | _, _ => false
  end.

(** [TaskStatus(v)]: the member whose value is [v], if any. *)
Definition of_value (v : string) : option TaskStatus :=
  find (fun s => String.eqb (value s) v) members.
End TaskStatus_.

Module TaskPriority_.
Definition value (p : TaskPriority) : string :=
  match p with
  | LOW => "low"
  | MEDIUM => "medium"
  | HIGH => "high"
  | URGENT => "urgent"
  end.

Definition members : list TaskPriority := [LOW; MEDIUM; HIGH; URGENT].

Definition eqb (a b : TaskPriority) : bool :=
  match a, b with
  | LOW, LOW | MEDIUM, MEDIUM | HIGH, HIGH | URGENT, URGENT => true
  | _, _ => false
  end.

Definition of_value (v : string) : option TaskPriority :=
  find (fun p => String.eqb (value p) v) members.
End TaskPriority_.

Definition datetime : Type := Z.

(** [datetime(y, m, d, hh, mm, ss)]: an order-preserving position of the
    calendar fields on the time line. *)
Definition mk_datetime (y m d hh mm ss : Z) : datetime :=
  (((((y * 12 + (m - 1)) * 31 + (d - 1)) * 24 + hh) * 60 + mm) * 60 + ss)%Z.

(** [class TaskCreate]: a validated creation payload. *)
Record TaskCreate : Type := mkTaskCreate {
  tc_title : string;
  tc_description : option string;
  tc_status : TaskStatus;
  tc_priority : TaskPriority;
  tc_due_date : option datetime
}.

(** [class TaskUpdate]: a validated update payload.  Every field is
    [Optional] with default [None], and the handler reads the payload
    through [model_dump(exclude_unset=True)], so a field has three states:
    [None] is a field the body did not set, [Some None] a field set to
    [null], [Some (Some v)] a field set to [v]. *)
Record TaskUpdate : Type := mkTaskUpdate {
  tu_title : option (option string);
  tu_description : option (option string);
  tu_status : option (option TaskStatus);
  tu_priority : option (option TaskPriority);
  tu_due_date : option (option datetime)
}.

(** [class Task] as an object at run time.  The class annotates [title],
    [status] and [priority] without [Optional]; the attributes of an
    instance built by [model_copy(update=...)] are whatever the update
    dictionary holds, so each of them can be [None]. *)
Record Task : Type := mkTask {
  id : string;
  title : option string;
  description : option string;
  status : option TaskStatus;
  priority : option TaskPriority;
  due_date : option datetime;
  created_at : datetime;
  updated_at : datetime
}.

(** The constraints the models declare for a task's fields. *)
Definition title_ok (s : string) : bool :=
  ((1 <=? Py.len s) && (Py.len s <=? 200))%Z.

Definition description_ok (s : string) : bool := (Py.len s <=? 1000)%Z.

Definition Task_ok (t : Task) : Prop :=
  (exists s, title t = Some s /\ title_ok s = true) /\
  (forall d, description t = Some d -> description_ok d = true) /\
  (exists s, status t = Some s) /\
  (exists p, priority t = Some p) /\
  (created_at t <= updated_at t)%Z.

(* ===================================================================== *)
(** ** The store: [tasks_db: dict[str, Task]] *)
(* ===================================================================== *)

(** A Python [dict] keeps its keys in insertion order, and the list
    endpoint exposes that order, so the store is an association list. *)
Module Dict.

Definition t : Type := list (string * Task).

(** [k in d] *)
Fixpoint contains (d : t) (k : string) : bool :=
  match d with
  | [] => false
  | (k', _) :: r => String.eqb k' k || contains r k
  end.

(** [d[k]] ([None] stands for [KeyError]) *)
Fixpoint get (d : t) (k : string) : option Task :=
  match d with
  | [] => None
  | (k', v) :: r => if String.eqb k' k then Some v else get r k
  end.

(** [d[k] = v]: an existing key keeps its position, a new key goes last. *)
Fixpoint set (d : t) (k : string) (v : Task) : t :=
  match d with
  | [] => [(k, v)]
  | (k', v') :: r =>
      if String.eqb k' k then (k', v) :: r else (k', v') :: set r k v
  end.

(** [d.pop(k)]: the store without [k]. *)
Fixpoint remove (d : t) (k : string) : t :=
  match d with
  | [] => []
  | (k', v') :: r => if String.eqb k' k then r else (k', v') :: remove r k
  end.

(** [list(d.values())] *)
Definition values (d : t) : list Task := map snd d.

Definition keys (d : t) : list string := map fst d.

(** [len(d)] *)
Definition len (d : t) : nat := length d.

End Dict.

Definition sample_tasks : list Task :=
  [ mkTask "task-001"
      (Some "Setup Development Environment")
      (Some "Install Python, FastAPI, and configure IDE")
      (Some COMPLETED) (Some HIGH)
      (Some (mk_datetime 2025 1 15 10 0 0))
      (mk_datetime 2025 1 10 9 0 0)
      (mk_datetime 2025 1 14 15 30 0);
    mkTask "task-002"
      (Some "Create API Endpoints")
      (Some "Implement CRUD operations for task management")
      (Some IN_PROGRESS) (Some HIGH)
      (Some (mk_datetime 2025 1 20 18 0 0))
      (mk_datetime 2025 1 12 10 0 0)
      (mk_datetime 2025 1 13 11 0 0);
    mkTask "task-003"
      (Some "Write Unit Tests")
      (Some "Create comprehensive test suite using pytest")
      (Some PENDING) (Some MEDIUM)
      (Some (mk_datetime 2025 1 25 17 0 0))
      (mk_datetime 2025 1 13 8 0 0)
      (mk_datetime 2025 1 13 8 0 0) ].

(** The store after the module's start-up loop
    [for task_data in sample_tasks: tasks_db[task_data["id"]] = Task(...)]. *)
Definition tasks_db0 : Dict.t :=
  fold_left (fun db t => Dict.set db (id t) t) sample_tasks [].

(* ===================================================================== *)
(** ** Handlers as computations over the store *)
(* ===================================================================== *)

Inductive exception : Type :=
| HTTPException (status_code : Z) (detail : string)
| RequestValidationError
| AttributeError
| KeyError.

Inductive outcome (A : Type) : Type :=
| Return (a : A)
| Raise (e : exception).

Arguments Return {A} a.
Arguments Raise {A} e.

(** A handler reads and writes the module-level store and ends by
    returning or raising; the store it leaves is the one at that point. *)
Definition handler (A : Type) : Type := Dict.t -> outcome A * Dict.t.

Definition ret {A : Type} (a : A) : handler A := fun db => (Return a, db).

Definition raise {A : Type} (e : exception) : handler A :=
  fun db => (Raise e, db).

Definition bind {A B : Type} (c : handler A) (k : A -> handler B) : handler B :=
  fun db =>
    match c db with
    | (Return a, db') => k a db'
    | (Raise e, db') => (Raise e, db')
    end.

(** The current value of [tasks_db]. *)
Definition read : handler Dict.t := fun db => (Return db, db).

(** Replace the value of [tasks_db]. *)
Definition write (db' : Dict.t) : handler unit := fun _ => (Return tt, db').

(** An expression that may raise but does not touch the store. *)
Definition lift {A : Type} (o : outcome A) : handler A := fun db => (o, db).

Declare Scope handler_scope.
Delimit Scope handler_scope with handler.
Notation "x <- c ;; k" := (bind c (fun x => k))
  (at level 61, c at next level, right associativity) : handler_scope.
Notation "c ;; k" := (bind c (fun _ => k))
  (at level 61, right associativity) : handler_scope.
Local Open Scope handler_scope.

(** [[x for x in l if cond(x)]] where evaluating [cond] may raise: the
    elements are visited in order and the first exception ends the
    comprehension. *)
Fixpoint comprehension {A : Type} (cond : A -> outcome bool) (l : list A)
  : outcome (list A) :=
  match l with
  | [] => Return []
  | x :: r =>
      match cond x with
      | Raise e => Raise e
      | Return b =>
          match comprehension cond r with
          | Raise e => Raise e
          | Return r' => Return (if b then x :: r' else r')
          end
      end
  end.

(** Response models. *)
Record TaskResponse : Type := mkTaskResponse {
  tr_success : bool;
  tr_message : string;
  tr_data : Task
}.

Record TaskListResponse : Type := mkTaskListResponse {
  tl_success : bool;
  tl_count : nat;
  tl_data : list Task
}.

Record DeleteResponse : Type := mkDeleteResponse {
  dr_success : bool;
  dr_message : string;
  dr_deleted_id : string
}.

Record Statistics : Type := mkStatistics {
  total_tasks : nat;
  by_status : list (string * nat);
  by_priority : list (string * nat)
}.

Record Health : Type := mkHealth {
  h_status : string;
  h_timestamp : datetime;
  h_version : string;
  h_total_tasks : nat
}.

Record Welcome : Type := mkWelcome {
  w_message : string;
  w_version : string;
  w_docs : string;
  w_redoc : string
}.

Definition HTTP_404_NOT_FOUND : Z := 404.

(** [f"Task with ID '{task_id}' not found"] *)
Definition not_found_detail (task_id : string) : string :=
  "Task with ID '" ++ task_id ++ "' not found".

(** [t.status == status] *)
Definition status_is (s : TaskStatus) (t : Task) : bool :=
  match status t with
  | Some s' => TaskStatus_.eqb s' s
  | None => false
  end.

(** [t.priority == priority] *)
Definition priority_is (p : TaskPriority) (t : Task) : bool :=
  match priority t with
  | Some p' => TaskPriority_.eqb p' p
  | None => false
  end.

(** The condition of the search comprehension,
    [search_lower in t.title.lower() or
     (t.description and search_lower in t.description.lower())].
    The left operand is evaluated first, and [.lower()] on a [None] title
    raises; a [None] or empty description is falsy and is not searched. *)
Definition search_cond (search_lower : string) (t : Task) : outcome bool :=
  match title t with
  | None => Raise AttributeError
  | Some ti =>
      if Py.str_in search_lower (Py.lower ti) then Return true
      else
        match description t with
        | None => Return false
        | Some d =>
            if Py.truthy d
            then Return (Py.str_in search_lower (Py.lower d))
            else Return false
        end
  end.

(** [GET /] *)
Definition root : handler Welcome :=
  ret (mkWelcome "Welcome to Task Management API" "1.0.0" "/docs" "/redoc").

(** [GET /api/health] *)
Definition health_check (now : datetime) : handler Health :=
  db <- read ;;
  ret (mkHealth "healthy" now "1.0.0" (Dict.len db)).

(** [GET /api/tasks] *)
Definition get_tasks (status : option TaskStatus)
    (priority : option TaskPriority) (search : option string)
    (limit offset : Z) : handler TaskListResponse :=
  db <- read ;;
  let filtered_tasks := Dict.values db in
  let filtered_tasks :=
    match status with
    | Some s => filter (status_is s) filtered_tasks
    | None => filtered_tasks
    end in
  let filtered_tasks :=
    match priority with
    | Some p => filter (priority_is p) filtered_tasks
    | None => filtered_tasks
    end in
  filtered_tasks <-
    match search with
    | Some s =>
        if Py.truthy s
        then lift (comprehension (search_cond (Py.lower s)) filtered_tasks)
        else ret filtered_tasks
    | None => ret filtered_tasks
    end ;;
  let paginated_tasks := Py.slice filtered_tasks offset (offset + limit) in
  ret (mkTaskListResponse true (length paginated_tasks) paginated_tasks).

(** [GET /api/tasks/{task_id}] *)
Definition get_task (task_id : string) : handler TaskResponse :=
  db <- read ;;
  if negb (Dict.contains db task_id)
  then raise (HTTPException HTTP_404_NOT_FOUND (not_found_detail task_id))
  else
    match Dict.get db task_id with
    | None => raise KeyError
    | Some t => ret (mkTaskResponse true "Task retrieved successfully" t)
    end.

(** [POST /api/tasks]; [now] is [datetime.now()] and [hex8] is
    [uuid.uuid4().hex[:8]]. *)
Definition create_task (now : datetime) (hex8 : string) (task : TaskCreate)
  : handler TaskResponse :=
  let task_id := ("task-" ++ hex8)%string in
  let new_task :=
    mkTask task_id (Some (tc_title task)) (tc_description task)
      (Some (tc_status task)) (Some (tc_priority task)) (tc_due_date task)
      now now in
  db <- read ;;
  write (Dict.set db task_id new_task) ;;
  ret (mkTaskResponse true "Task created successfully" new_task).

(** One entry of the update dictionary: a key that is present replaces
    the attribute, whatever its value. *)
Definition override {A : Type} (u : option A) (old : A) : A :=
  match u with
  | Some v => v
  | None => old
  end.

(** [existing_task.model_copy(update={**update_data, "updated_at": now})]
    with [update_data = task_update.model_dump(exclude_unset=True)].  The
    copy is not validated. *)
Definition model_copy (existing_task : Task) (update_data : TaskUpdate)
    (now : datetime) : Task :=
  mkTask (id existing_task)
    (override (tu_title update_data) (title existing_task))
    (override (tu_description update_data) (description existing_task))
    (override (tu_status update_data) (status existing_task))
    (override (tu_priority update_data) (priority existing_task))
    (override (tu_due_date update_data) (due_date existing_task))
    (created_at existing_task)
    now.

(** [PUT /api/tasks/{task_id}] *)
Definition update_task (now : datetime) (task_id : string)
    (task_update : TaskUpdate) : handler TaskResponse :=
  db <- read ;;
  if negb (Dict.contains db task_id)
  then raise (HTTPException HTTP_404_NOT_FOUND (not_found_detail task_id))
  else
    match Dict.get db task_id with
    | None => raise KeyError
    | Some existing_task =>
        let updated_task := model_copy existing_task task_update now in
        write (Dict.set db task_id updated_task) ;;
        ret (mkTaskResponse true "Task updated successfully" updated_task)
    end.

(** [str(t.title)] inside an f-string. *)
Definition format_title (t : Task) : string :=
  match title t with
  | Some s => s
  | None => "None"
  end.

(** [DELETE /api/tasks/{task_id}] *)
Definition delete_task (task_id : string) : handler DeleteResponse :=
  db <- read ;;
  if negb (Dict.contains db task_id)
  then raise (HTTPException HTTP_404_NOT_FOUND (not_found_detail task_id))
  else
    match Dict.get db task_id with
    | None => raise KeyError
    | Some deleted_task =>
        write (Dict.remove db task_id) ;;
        ret (mkDeleteResponse true
               ("Task '" ++ format_title deleted_task
                  ++ "' deleted successfully")%string
               task_id)
    end.

(** [GET /api/stats] *)
Definition get_statistics : handler Statistics :=
  db <- read ;;
  let tasks := Dict.values db in
  let status_counts :=
    map (fun s => (TaskStatus_.value s, length (filter (status_is s) tasks)))
        TaskStatus_.members in
  let priority_counts :=
    map (fun p => (TaskPriority_.value p, length (filter (priority_is p) tasks)))
        TaskPriority_.members in
  ret (mkStatistics (length tasks) status_counts priority_counts).

(* ===================================================================== *)
(** ** The request layer: validation declared by the models *)
(* ===================================================================== *)

(** What a JSON body holds under one key, as the field's declared type
    sees it: no such key; [null]; a value of the field's kind (a string
    for a [str] or enum field, a timestamp for a [datetime] field); or a
    value of another kind or a text that is not a timestamp. *)
Inductive wire (A : Type) : Type :=
| Omitted
| Null
| Valid (a : A)
| Invalid.

Arguments Omitted {A}.
Arguments Null {A}.
Arguments Valid {A} a.
Arguments Invalid {A}.

(** The body of [POST /api/tasks]. *)
Record TaskCreateBody : Type := mkTaskCreateBody {
  cb_title : wire string;
  cb_description : wire string;
  cb_status : wire string;
  cb_priority : wire string;
  cb_due_date : wire datetime
}.

(** The body of [PUT /api/tasks/{task_id}]. *)
Record TaskUpdateBody : Type := mkTaskUpdateBody {
  ub_title : wire string;
  ub_description : wire string;
  ub_status : wire string;
  ub_priority : wire string;
  ub_due_date : wire datetime
}.

(** The text of a query parameter declared [int], as that type sees it:
    a text that reads as the integer [z], or any other text. *)
Inductive int_text : Type :=
| Reads (z : Z)
| NotAnInteger.

(** The query string of [GET /api/tasks]: each parameter is absent or
    holds a text. *)
Record TaskQuery : Type := mkTaskQuery {
  q_status : option string;
  q_priority : option string;
  q_search : option string;
  q_limit : option int_text;
  q_offset : option int_text
}.

Module Validate.

(** A constrained string: [Field(..., min_length=, max_length=)]. *)
Definition constrained (ok : string -> bool) (s : string) : option string :=
  if ok s then Some s else None.

(** A required field [: T = Field(...)]; [None] is a validation error. *)
Definition required {A B : Type} (parse : A -> option B) (w : wire A)
  : option B :=
  match w with
  | Valid a => parse a
  | Omitted | Null | Invalid => None
  end.

(** A field with a default, [: T = Field(default=d)]. *)
Definition defaulted {A B : Type} (parse : A -> option B) (d : B)
    (w : wire A) : option B :=
  match w with
  | Omitted => Some d
  | Valid a => parse a
  | Null | Invalid => None
  end.

(** A field [: Optional[T] = Field(None, ...)] of a model read as a whole:
    an omitted key and [null] both give [None]. *)
Definition optional {A B : Type} (parse : A -> option B) (w : wire A)
  : option (option B) :=
  match w with
  | Omitted | Null => Some None
  | Valid a =>
      match parse a with
      | Some b => Some (Some b)
      | None => None
      end
  | Invalid => None
  end.

(** A field [: Optional[T] = None] of a model read through
    [model_dump(exclude_unset=True)]: an omitted key stays unset, [null]
    is a set field holding [None]. *)
Definition settable {A B : Type} (parse : A -> option B) (w : wire A)
  : option (option (option B)) :=
  match w with
  | Omitted => Some None
  | Null => Some (Some None)
  | Valid a =>
      match parse a with
      | Some b => Some (Some (Some b))
      | None => None
      end
  | Invalid => None
  end.

(** [TaskCreate] built from the body; [None] is a validation error. *)
Definition task_create (b : TaskCreateBody) : option TaskCreate :=
  match required (constrained title_ok) (cb_title b),
        optional (constrained description_ok) (cb_description b),
        defaulted TaskStatus_.of_value PENDING (cb_status b),
        defaulted TaskPriority_.of_value MEDIUM (cb_priority b),
        optional (@Some datetime) (cb_due_date b)
  with
  | Some ti, Some de, Some st, Some pr, Some du =>
      Some (mkTaskCreate ti de st pr du)
  | _, _, _, _, _ => None
  end.

(** [TaskUpdate] built from the body; [None] is a validation error. *)
Definition task_update (b : TaskUpdateBody) : option TaskUpdate :=
  match settable (constrained title_ok) (ub_title b),
        settable (constrained description_ok) (ub_description b),
        settable TaskStatus_.of_value (ub_status b),
        settable TaskPriority_.of_value (ub_priority b),
        settable (@Some datetime) (ub_due_date b)
  with
  | Some ti, Some de, Some st, Some pr, Some du =>
      Some (mkTaskUpdate ti de st pr du)
  | _, _, _, _, _ => None
  end.

(** An enum query parameter [: Optional[E] = Query(None)]. *)
Definition enum_param {E : Type} (of_value : string -> option E)
    (p : option string) : option (option E) :=
  match p with
  | None => Some None
  | Some v =>
      match of_value v with
      | Some e => Some (Some e)
      | None => None
      end
  end.

(** [limit: int = Query(100, ge=1, le=100)] *)
Definition limit_param (p : option int_text) : option Z :=
  match p with
  | None => Some 100%Z
  | Some (Reads l) => if ((1 <=? l) && (l <=? 100))%Z then Some l else None
  | Some NotAnInteger => None
  end.

(** [offset: int = Query(0, ge=0)] *)
Definition offset_param (p : option int_text) : option Z :=
  match p with
  | None => Some 0%Z
  | Some (Reads o) => if (0 <=? o)%Z then Some o else None
  | Some NotAnInteger => None
  end.

End Validate.

(** The readings a request takes from its environment. *)
Record env : Type := mkEnv {
  now : datetime;        (* datetime.now() *)
  hex8 : string          (* uuid.uuid4().hex[:8] *)
}.

Inductive request : Type :=
| GET_root
| GET_health
| GET_tasks (q : TaskQuery)
| GET_task (task_id : string)
| POST_tasks (body : TaskCreateBody)
| PUT_task (task_id : string) (body : TaskUpdateBody)
| DELETE_task (task_id : string)
| GET_stats.

Inductive response : Type :=
| RWelcome (r : Welcome)
| RHealth (r : Health)
| RTaskList (r : TaskListResponse)
| RTask (r : TaskResponse)
| RDeleted (r : DeleteResponse)
| RStats (r : Statistics).

(** Apply a response constructor to what a handler returns. *)
Definition as_response {A : Type} (f : A -> response) (c : handler A)
  : handler response :=
  a <- c ;; ret (f a).

(** [GET /api/tasks?...]: validate the query, then run the handler. *)
Definition list_endpoint (q : TaskQuery) : handler TaskListResponse :=
  match Validate.enum_param TaskStatus_.of_value (q_status q),
        Validate.enum_param TaskPriority_.of_value (q_priority q),
        Validate.limit_param (q_limit q),
        Validate.offset_param (q_offset q)
  with
  | Some st, Some pr, Some l, Some o => get_tasks st pr (q_search q) l o
  | _, _, _, _ => raise RequestValidationError
  end.

(** [POST /api/tasks]: validate the body, then run the handler. *)
Definition create_endpoint (e : env) (body : TaskCreateBody)
  : handler TaskResponse :=
  match Validate.task_create body with
  | Some task => create_task (now e) (hex8 e) task
  | None => raise RequestValidationError
  end.

(** [PUT /api/tasks/{task_id}]: validate the body, then run the handler. *)
Definition update_endpoint (e : env) (task_id : string)
    (body : TaskUpdateBody) : handler TaskResponse :=
  match Validate.task_update body with
  | Some task_update => update_task (now e) task_id task_update
  | None => raise RequestValidationError
  end.

(** The application: route one request. *)
Definition app (e : env) (r : request) : handler response :=
  match r with
  | GET_root => as_response RWelcome root
  | GET_health => as_response RHealth (health_check (now e))
  | GET_tasks q => as_response RTaskList (list_endpoint q)
  | GET_task task_id => as_response RTask (get_task task_id)
  | POST_tasks body => as_response RTask (create_endpoint e body)
  | PUT_task task_id body => as_response RTask (update_endpoint e task_id body)
  | DELETE_task task_id => as_response RDeleted (delete_task task_id)
  | GET_stats => as_response RStats get_statistics
  end.

(** The store a handler leaves, and what it answers. *)
Definition store_after {A : Type} (c : handler A) (db : Dict.t) : Dict.t :=
  snd (c db).

Definition answer {A : Type} (c : handler A) (db : Dict.t) : outcome A :=
  fst (c db).

(** Serve a sequence of requests, one after the other. *)
Fixpoint serve (reqs : list (env * request)) (db : Dict.t) : Dict.t :=
  match reqs with
  | [] => db
  | (e, r) :: rest => serve rest (store_after (app e r) db)
  end.

(** A store the running application can hold: the seeded store, then any
    sequence of requests. *)
Definition reachable (db : Dict.t) : Prop :=
  exists reqs, serve reqs tasks_db0 = db.

(* ===================================================================== *)
(** ** The specification's wording *)
(* ===================================================================== *)

(** Definitions written from the specification's sentences, to compare
    with the handlers above. *)
Module Spec.

(** "case-insensitive substring": [x] occurs in [s] once both are put in
    lower case. *)
Definition occurs_ci (x s : string) : Prop :=
  exists p q : string, Py.lower s = (p ++ Py.lower x ++ q)%string.

(** "X (case-insensitive) appears in title or description". *)
Definition appears (x : string) (t : Task) : Prop :=
  (exists s, title t = Some s /\ occurs_ci x s) \/
  (exists d, description t = Some d /\ occurs_ci x d).

(** "task kept if either field contains the search string; absent
    description never matches". *)
Definition search_match (x : string) (t : Task) : bool :=
  match title t with
  | Some s => Py.str_in (Py.lower x) (Py.lower s)
  | None => false
  end
  || match description t with
     | Some d => Py.str_in (Py.lower x) (Py.lower d)
     | None => false
     end.

(** "Filter by ... if provided". *)
Definition filter_if {A : Type} (p : option A) (f : A -> Task -> bool)
    (l : list Task) : list Task :=
  match p with
  | Some a => filter (f a) l
  | None => l
  end.

(** "Apply filters in the order above (status, priority, search) ...
    skip [offset] items, take up to [limit] items". *)
Definition page (tasks : list Task) (st : option TaskStatus)
    (pr : option TaskPriority) (se : option string) (limit offset : Z)
  : list Task :=
  let by_status := filter_if st status_is tasks in
  let by_priority := filter_if pr priority_is by_status in
  let by_search := filter_if se search_match by_priority in
  firstn (Z.to_nat limit) (skipn (Z.to_nat offset) by_search).

Definition status_values : list string :=
  ["pending"; "in-progress"; "completed"; "cancelled"].

Definition priority_values : list string :=
  ["low"; "medium"; "high"; "urgent"].

(** "title missing": the body holds no title. *)
Definition title_missing (b : TaskCreateBody) : bool :=
  match cb_title b with
  | Omitted | Null => true
  | Valid _ | Invalid => false
  end.

(** "title empty or longer than 200 chars". *)
Definition title_empty_or_long (b : TaskCreateBody) : bool :=
  match cb_title b with
  | Valid s => ((Py.len s =? 0) || (200 <? Py.len s))%Z
  | _ => false
  end.

(** "description longer than 1000 chars". *)
Definition description_long (b : TaskCreateBody) : bool :=
  match cb_description b with
  | Valid s => (1000 <? Py.len s)%Z
  | _ => false
  end.

(** "status / priority not in their enum sets": a value is supplied and
    it is not one of the four. *)
Definition outside (values : list string) (w : wire string) : bool :=
  match w with
  | Omitted => false
  | Valid v => negb (existsb (String.eqb v) values)
  | Null | Invalid => true
  end.

(** The rejection conditions the specification lists for create. *)
Definition listed_violation (b : TaskCreateBody) : bool :=
  title_missing b || title_empty_or_long b || description_long b
  || outside status_values (cb_status b)
  || outside priority_values (cb_priority b).

(** A value that is not of its field's kind: a title or description that
    is not a string, a due date that is not a timestamp. *)
Definition is_invalid {A : Type} (w : wire A) : bool :=
  match w with
  | Invalid => true
  | _ => false
  end.

Definition wrong_kind (b : TaskCreateBody) : bool :=
  is_invalid (cb_title b) || is_invalid (cb_description b)
  || is_invalid (cb_due_date b).

End Spec.

(* ===================================================================== *)
(** ** Properties of stores *)
(* ===================================================================== *)

(** Every record is filed under its own id, and no key occurs twice. *)
Definition keyed (db : Dict.t) : Prop :=
  NoDup (Dict.keys db) /\ Forall (fun kv => id (snd kv) = fst kv) db.

(** Every record has a title, a status, a priority. *)
Definition titled (db : Dict.t) : Prop :=
  Forall (fun t => title t <> None) (Dict.values db).

Definition typed (db : Dict.t) : Prop :=
  Forall (fun t => status t <> None /\ priority t <> None) (Dict.values db).

(** Every record satisfies the constraints of the [Task] model. *)
Definition valid_store (db : Dict.t) : Prop :=
  Forall Task_ok (Dict.values db).

(** An update body that sends [null] for a field the [Task] model
    requires. *)
Definition is_null {A : Type} (w : wire A) : bool :=
  match w with
  | Null => true
  | _ => false
  end.

Definition nulls_required (b : TaskUpdateBody) : bool :=
  is_null (ub_title b) || is_null (ub_status b) || is_null (ub_priority b).

(** The sum of the counts of one grouping of the statistics. *)
Definition counts_sum (counts : list (string * nat)) : nat :=
  list_sum (map snd counts).

(** The record [create_task] builds and stores. *)
Definition new_task (now : datetime) (hex8 : string) (task : TaskCreate)
  : Task :=
  mkTask ("task-" ++ hex8)%string (Some (tc_title task))
    (tc_description task) (Some (tc_status task)) (Some (tc_priority task))
    (tc_due_date task) now now.

(** A request that keeps to the [Task] model: an update that sends no
    [null] for a required field, at a clock reading that is not before the
    creation of the record it updates. *)
Definition respects_model (db : Dict.t) (e : env) (r : request) : Prop :=
  match r with
  | PUT_task task_id body =>
      nulls_required body = false /\
      forall old, Dict.get db task_id = Some old -> (created_at old <= now e)%Z
  | _ => True
  end.

(** A sequence of requests each of which keeps to the model in the store
    it meets. *)
Fixpoint respectful (reqs : list (env * request)) (db : Dict.t) : Prop :=
  match reqs with
  | [] => True
  | (e, r) :: rest =>
      respects_model db e r /\ respectful rest (store_after (app e r) db)
  end.

(* ===================================================================== *)
(** ** Conditions read off the declarations *)
(* ===================================================================== *)

(** A query string the [Query] declarations of the list endpoint refuse:
    a status or a priority that is not a value of its enum, a limit that
    is not an integer of 1..100, an offset that is not an integer of 0 or
    more. *)
Definition bad_query (q : TaskQuery) : bool :=
  match q_status q with
  | Some v => negb (existsb (String.eqb v) Spec.status_values)
  | None => false
  end
  || match q_priority q with
     | Some v => negb (existsb (String.eqb v) Spec.priority_values)
     | None => false
     end
  || match q_limit q with
     | Some (Reads l) => ((l <? 1) || (100 <? l))%Z
     | Some NotAnInteger => true
     | None => false
     end
  || match q_offset q with
     | Some (Reads o) => (o <? 0)%Z
     | Some NotAnInteger => true
     | None => false
     end.




(** A request that sends [null] for a field the [Task] model requires. *)
Definition sends_required_null (r : request) : bool :=
  match r with
  | PUT_task _ body => nulls_required body
  | _ => false
  end.

(** Records without a status, without a priority. *)
Definition no_status (t : Task) : bool :=
  match status t with
  | None => true
  | Some _ => false
  end.

Definition no_priority (t : Task) : bool :=
  match priority t with
  | None => true
  | Some _ => false
  end.

(** The query string with no parameter. *)
Definition no_params : TaskQuery := mkTaskQuery None None None None None.

(** An update payload that sets every field another one sets. *)
Definition sets_at_least (later earlier : TaskUpdate) : Prop :=
  (tu_title earlier <> None -> tu_title later <> None) /\
  (tu_description earlier <> None -> tu_description later <> None) /\
  (tu_status earlier <> None -> tu_status later <> None) /\
  (tu_priority earlier <> None -> tu_priority later <> None) /\
  (tu_due_date earlier <> None -> tu_due_date later <> None).

(* ===================================================================== *)
(** ** Facts about the built-ins *)
(* ===================================================================== *)

Module PyFacts.

Lemma startswith_append (n s : string) : Py.startswith n (n ++ s) = true.
Proof.
  induction n as [|a n IH]; simpl; [reflexivity|].
  now rewrite Ascii.eqb_refl, IH.
Qed.

Lemma startswith_inv (n h : string) :
  Py.startswith n h = true -> exists s, h = (n ++ s)%string.
Proof.
  revert h; induction n as [|a n IH]; intros h H.
  - now exists h.
  - destruct h as [|b h]; simpl in H; [discriminate|].
    apply andb_true_iff in H as [Hab Hr].
    apply Ascii.eqb_eq in Hab; subst b.
    destruct (IH _ Hr) as [s ->]. now exists s.
Qed.

Lemma startswith_str_in (n h : string) :
  Py.startswith n h = true -> Py.str_in n h = true.
Proof. intros H. destruct h; simpl; rewrite H; reflexivity. Qed.

Lemma str_in_occurs (n h : string) :
  Py.str_in n h = true <-> exists p s, h = (p ++ n ++ s)%string.
Proof.
  split.
  - induction h as [|b h IH]; simpl; intros H.
    + apply orb_true_iff in H as [H|H]; [|discriminate].
      destruct (startswith_inv _ _ H) as [s ->]. now exists EmptyString, s.
    + apply orb_true_iff in H as [H|H].
      * destruct (startswith_inv _ _ H) as [s Hs]. exists EmptyString, s. exact Hs.
      * destruct (IH H) as (p & s & ->). now exists (String b p), s.
  - intros (p & s & ->). induction p as [|b p IH]; simpl.
    + apply startswith_str_in, startswith_append.
    + rewrite IH. apply orb_true_r.
Qed.

Lemma str_in_empty (h : string) : Py.str_in EmptyString h = true.
Proof. destruct h; reflexivity. Qed.

Lemma lower_truthy (s : string) : Py.truthy (Py.lower s) = Py.truthy s.
Proof. destruct s; reflexivity. Qed.

Lemma firstn_min_length {A : Type} (k : nat) (l : list A) :
  firstn (Nat.min k (length l)) l = firstn k l.
Proof.
  destruct (Nat.le_ge_cases k (length l)) as [H|H].
  - now rewrite Nat.min_l.
  - rewrite Nat.min_r by exact H.
    now rewrite firstn_all, firstn_all2.
Qed.

Lemma slice_page {A : Type} (l : list A) (offset limit : Z) :
  (0 <= offset)%Z -> (0 <= limit)%Z ->
  Py.slice l offset (offset + limit) =
  firstn (Z.to_nat limit) (skipn (Z.to_nat offset) l).
Proof.
  intros Ho Hl. unfold Py.slice, Py.adjust.
  destruct (Z.ltb_spec offset 0) as [?|_]; [lia|].
  destruct (Z.ltb_spec (offset + limit) 0) as [?|_]; [lia|].
  set (n := Z.of_nat (length l)).
  destruct (Z.le_gt_cases offset n) as [Hle|Hgt].
  - rewrite (Z.min_l offset n) by exact Hle.
    rewrite <- (firstn_min_length (Z.to_nat limit)).
    f_equal. rewrite length_skipn. subst n. lia.
  - rewrite (Z.min_r offset n) by lia.
    rewrite (skipn_all2 l (n := Z.to_nat n)) by (subst n; lia).
    rewrite (skipn_all2 l (n := Z.to_nat offset)) by (subst n; lia).
    now rewrite !firstn_nil.
Qed.

End PyFacts.

(* ===================================================================== *)
(** ** Facts about the dictionary *)
(* ===================================================================== *)

Module DictFacts.

Lemma contains_get (d : Dict.t) (k : string) :
  Dict.contains d k = true <-> exists v, Dict.get d k = Some v.
Proof.
  induction d as [|[k' v'] r IH]; simpl.
  - split; [discriminate|intros [? ?]; discriminate].
  - destruct (String.eqb k' k); simpl; [|exact IH].
    split; [now exists v'|reflexivity].
Qed.

Lemma absent_get (d : Dict.t) (k : string) :
  Dict.contains d k = false <-> Dict.get d k = None.
Proof.
  induction d as [|[k' v'] r IH]; simpl; [tauto|].
  destruct (String.eqb k' k); simpl; [|exact IH].
  split; discriminate.
Qed.

Lemma contains_keys (d : Dict.t) (k : string) :
  Dict.contains d k = true <-> In k (Dict.keys d).
Proof.
  induction d as [|[k' v'] r IH]; simpl.
  - split; [discriminate|tauto].
  - rewrite orb_true_iff, IH, String.eqb_eq. reflexivity.
Qed.

Lemma get_in (d : Dict.t) (k : string) (v : Task) :
  Dict.get d k = Some v -> In (k, v) d.
Proof.
  induction d as [|[k' v'] r IH]; simpl; [discriminate|].
  destruct (String.eqb_spec k' k) as [->|_].
  - intros [= ->]. now left.
  - intros H. right. now apply IH.
Qed.

Lemma get_set_same (d : Dict.t) (k : string) (v : Task) :
  Dict.get (Dict.set d k v) k = Some v.
Proof.
  induction d as [|[k' v'] r IH]; simpl.
  - now rewrite String.eqb_refl.
  - destruct (String.eqb k' k) eqn:E; simpl; rewrite E; [reflexivity|exact IH].
Qed.

Lemma get_set_other (d : Dict.t) (k k2 : string) (v : Task) :
  k2 <> k -> Dict.get (Dict.set d k v) k2 = Dict.get d k2.
Proof.
  intros Hne. induction d as [|[k' v'] r IH]; simpl.
  - destruct (String.eqb_spec k k2); [congruence|reflexivity].
  - destruct (String.eqb_spec k' k) as [->|_]; simpl.
    + destruct (String.eqb_spec k k2); [congruence|reflexivity].
    + now rewrite IH.
Qed.

Lemma set_absent (d : Dict.t) (k : string) (v : Task) :
  Dict.contains d k = false -> Dict.set d k v = d ++ [(k, v)].
Proof.
  induction d as [|[k' v'] r IH]; simpl; [reflexivity|].
  destruct (String.eqb k' k); simpl; [discriminate|].
  intros H. now rewrite IH.
Qed.

Lemma len_set_present (d : Dict.t) (k : string) (v : Task) :
  Dict.contains d k = true -> Dict.len (Dict.set d k v) = Dict.len d.
Proof.
  unfold Dict.len.
  induction d as [|[k' v'] r IH]; simpl; [discriminate|].
  destruct (String.eqb k' k); simpl; [reflexivity|].
  intros H. now rewrite IH.
Qed.

Lemma len_set_absent (d : Dict.t) (k : string) (v : Task) :
  Dict.contains d k = false -> Dict.len (Dict.set d k v) = S (Dict.len d).
Proof.
  intros H. rewrite (set_absent _ _ v H). unfold Dict.len.
  rewrite length_app. simpl. lia.
Qed.

Lemma keys_set_present (d : Dict.t) (k : string) (v : Task) :
  Dict.contains d k = true -> Dict.keys (Dict.set d k v) = Dict.keys d.
Proof.
  unfold Dict.keys.
  induction d as [|[k' v'] r IH]; simpl; [discriminate|].
  destruct (String.eqb k' k); simpl; [reflexivity|].
  intros H. now rewrite IH.
Qed.

Lemma in_set (d : Dict.t) (k : string) (v : Task) (k2 : string) (v2 : Task) :
  In (k2, v2) (Dict.set d k v) -> (k2, v2) = (k, v) \/ In (k2, v2) d.
Proof.
  induction d as [|[k' v'] r IH]; simpl.
  - intros [H|[]]. left. now symmetry.
  - destruct (String.eqb_spec k' k) as [->|_]; simpl.
    + intros [H|H]; [left; now symmetry|right; now right].
    + intros [H|H]; [right; now left|].
      destruct (IH H) as [?|?]; [now left|right; now right].
Qed.

Lemma in_remove (d : Dict.t) (k : string) (e : string * Task) :
  In e (Dict.remove d k) -> In e d.
Proof.
  induction d as [|[k' v'] r IH]; simpl; [tauto|].
  destruct (String.eqb k' k); simpl; [tauto|].
  intros [H|H]; [now left|right; now apply IH].
Qed.

Lemma get_remove_same (d : Dict.t) (k : string) :
  NoDup (Dict.keys d) -> Dict.get (Dict.remove d k) k = None.
Proof.
  induction d as [|[k' v'] r IH]; simpl; [reflexivity|].
  intros Hnd. inversion Hnd as [|? ? Hnotin Hnd']; subst.
  destruct (String.eqb_spec k' k) as [->|Hne]; simpl.
  - apply absent_get. apply not_true_is_false.
    now rewrite contains_keys.
  - destruct (String.eqb_spec k' k); [congruence|]. now apply IH.
Qed.

Lemma nodup_keys_set (d : Dict.t) (k : string) (v : Task) :
  NoDup (Dict.keys d) -> NoDup (Dict.keys (Dict.set d k v)).
Proof.
  intros Hnd. destruct (Dict.contains d k) eqn:E.
  - now rewrite keys_set_present.
  - rewrite (set_absent _ _ v E). unfold Dict.keys. rewrite map_app. simpl.
    apply NoDup_app; [exact Hnd|repeat constructor; simpl; tauto|].
    intros x Hx [<-|[]].
    apply contains_keys in Hx. congruence.
Qed.

Lemma nodup_keys_remove (d : Dict.t) (k : string) :
  NoDup (Dict.keys d) -> NoDup (Dict.keys (Dict.remove d k)).
Proof.
  induction d as [|[k' v'] r IH]; simpl; [tauto|].
  intros Hnd. inversion Hnd as [|? ? Hnotin Hnd']; subst.
  destruct (String.eqb k' k); simpl; [exact Hnd'|].
  constructor; [|now apply IH].
  intros Hin. apply Hnotin.
  apply in_map_iff in Hin as ([k2 v2] & <- & Hin).
  apply in_map_iff. exists (k2, v2). split; [reflexivity|].
  eapply in_remove; eassumption.
Qed.

End DictFacts.

(* ===================================================================== *)
(** ** What each handler does on a store *)
(* ===================================================================== *)

Section Runs.

Variable db : Dict.t.

Lemma get_task_absent (task_id : string) :
  Dict.contains db task_id = false ->
  get_task task_id db =
  (Raise (HTTPException 404 (not_found_detail task_id)), db).
Proof. intros H. unfold get_task, bind, read. now rewrite H. Qed.

Lemma get_task_present (task_id : string) (t : Task) :
  Dict.get db task_id = Some t ->
  get_task task_id db =
  (Return (mkTaskResponse true "Task retrieved successfully" t), db).
Proof.
  intros H. unfold get_task, bind, read.
  assert (Hc : Dict.contains db task_id = true)
    by (apply DictFacts.contains_get; eauto).
  now rewrite Hc, H.
Qed.

Lemma update_task_absent (now : datetime) (task_id : string)
    (task_update : TaskUpdate) :
  Dict.contains db task_id = false ->
  update_task now task_id task_update db =
  (Raise (HTTPException 404 (not_found_detail task_id)), db).
Proof. intros H. unfold update_task, bind, read. now rewrite H. Qed.

Lemma update_task_present (now : datetime) (task_id : string)
    (task_update : TaskUpdate) (existing_task : Task) :
  Dict.get db task_id = Some existing_task ->
  update_task now task_id task_update db =
  (Return (mkTaskResponse true "Task updated successfully"
             (model_copy existing_task task_update now)),
   Dict.set db task_id (model_copy existing_task task_update now)).
Proof.
  intros H. unfold update_task, bind, read.
  assert (Hc : Dict.contains db task_id = true)
    by (apply DictFacts.contains_get; eauto).
  now rewrite Hc, H.
Qed.

Lemma delete_task_absent (task_id : string) :
  Dict.contains db task_id = false ->
  delete_task task_id db =
  (Raise (HTTPException 404 (not_found_detail task_id)), db).
Proof. intros H. unfold delete_task, bind, read. now rewrite H. Qed.

Lemma delete_task_present (task_id : string) (deleted_task : Task) :
  Dict.get db task_id = Some deleted_task ->
  delete_task task_id db =
  (Return (mkDeleteResponse true
             ("Task '" ++ format_title deleted_task
                ++ "' deleted successfully")%string task_id),
   Dict.remove db task_id).
Proof.
  intros H. unfold delete_task, bind, read.
  assert (Hc : Dict.contains db task_id = true)
    by (apply DictFacts.contains_get; eauto).
  now rewrite Hc, H.
Qed.

Lemma create_task_run (now : datetime) (hex8 : string) (task : TaskCreate) :
  store_after (create_task now hex8 task) db =
  Dict.set db ("task-" ++ hex8)%string
    (mkTask ("task-" ++ hex8)%string (Some (tc_title task))
       (tc_description task) (Some (tc_status task))
       (Some (tc_priority task)) (tc_due_date task) now now).
Proof. reflexivity. Qed.

(** The store a handler leaves when the only thing it does to the store
    is read it. *)
Lemma get_tasks_store (st : option TaskStatus) (pr : option TaskPriority)
    (se : option string) (l o : Z) :
  store_after (get_tasks st pr se l o) db = db.
Proof.
  unfold store_after, get_tasks, bind, read, lift, ret.
  destruct se as [s|]; [destruct (Py.truthy s)|]; simpl;
    try reflexivity.
  now destruct (comprehension _ _).
Qed.

Lemma list_endpoint_store (q : TaskQuery) :
  store_after (list_endpoint q) db = db.
Proof.
  unfold list_endpoint.
  destruct (Validate.enum_param _ (q_status q)); [|reflexivity].
  destruct (Validate.enum_param _ (q_priority q)); [|reflexivity].
  destruct (Validate.limit_param _); [|reflexivity].
  destruct (Validate.offset_param _); [|reflexivity].
  apply get_tasks_store.
Qed.

Lemma get_task_store (task_id : string) :
  store_after (get_task task_id) db = db.
Proof.
  unfold store_after, get_task, bind, read.
  destruct (Dict.contains db task_id); simpl; [|reflexivity].
  now destruct (Dict.get db task_id).
Qed.

Lemma as_response_store {A : Type} (f : A -> response) (c : handler A) :
  store_after (as_response f c) db = store_after c db.
Proof.
  unfold store_after, as_response, bind, ret.
  now destruct (c db) as [[a|e] db'].
Qed.

End Runs.

Lemma validated_update (b : TaskUpdateBody) (u : TaskUpdate) :
  Validate.task_update b = Some u ->
  Validate.settable (Validate.constrained title_ok) (ub_title b)
    = Some (tu_title u) /\
  Validate.settable (Validate.constrained description_ok) (ub_description b)
    = Some (tu_description u) /\
  Validate.settable TaskStatus_.of_value (ub_status b) = Some (tu_status u) /\
  Validate.settable TaskPriority_.of_value (ub_priority b)
    = Some (tu_priority u) /\
  Validate.settable (@Some datetime) (ub_due_date b) = Some (tu_due_date u).
Proof.
  unfold Validate.task_update.
  destruct (Validate.settable _ (ub_title b)); [|discriminate].
  destruct (Validate.settable _ (ub_description b)); [|discriminate].
  destruct (Validate.settable _ (ub_status b)); [|discriminate].
  destruct (Validate.settable _ (ub_priority b)); [|discriminate].
  destruct (Validate.settable _ (ub_due_date b)); [|discriminate].
  intros [= <-]. simpl. repeat split.
Qed.

Lemma settable_null {A B : Type} (parse : A -> option B) (w : wire A)
    (f : option (option B)) :
  Validate.settable parse w = Some f -> w = Null -> f = Some None.
Proof. intros H ->. simpl in H. congruence. Qed.

Lemma settable_omitted {A B : Type} (parse : A -> option B) (w : wire A)
    (f : option (option B)) :
  Validate.settable parse w = Some f -> w = Omitted -> f = None.
Proof. intros H ->. simpl in H. congruence. Qed.

(* ===================================================================== *)
(** ** Not-found errors *)
(* ===================================================================== *)

(** C4. For an id that is not in the store, get-one, update and delete
    each raise the 404 error whose detail is the text
    [Task with ID '<id>' not found], and leave the store as it was; asking
    again for the same id gives the same answer. *)
Theorem absent_id_is_not_found (db : Dict.t) (task_id : string)
    (now : datetime) (task_update : TaskUpdate) :
  Dict.contains db task_id = false ->
  get_task task_id db =
    (Raise (HTTPException 404 ("Task with ID '" ++ task_id ++ "' not found")),
     db) /\
  update_task now task_id task_update db =
    (Raise (HTTPException 404 ("Task with ID '" ++ task_id ++ "' not found")),
     db) /\
  delete_task task_id db =
    (Raise (HTTPException 404 ("Task with ID '" ++ task_id ++ "' not found")),
     db) /\
  answer (get_task task_id) (store_after (get_task task_id) db) =
    answer (get_task task_id) db.
Proof.
  intros H. unfold store_after, answer.
  rewrite (update_task_absent db now task_id task_update H).
  rewrite (delete_task_absent db task_id H).
  rewrite (get_task_absent db task_id H). simpl.
  rewrite (get_task_absent db task_id H).
  repeat split; reflexivity.
Qed.

Lemma absent_id_is_not_found_witness :
  Dict.contains tasks_db0 "non-existent-id" = false /\
  get_task "non-existent-id" tasks_db0 =
    (Raise (HTTPException 404 "Task with ID 'non-existent-id' not found"),
     tasks_db0).
Proof.
  split; [reflexivity|].
  apply (absent_id_is_not_found tasks_db0 "non-existent-id" 0%Z
           (mkTaskUpdate None None (Some (Some COMPLETED)) None None)).
  reflexivity.
Defined.

(** Through the request layer the body of a [PUT] is validated before the
    handler looks the id up: on an absent id the answer is the validation
    error for a body that does not validate and the 404 otherwise; the
    store is untouched in both cases. *)
Lemma update_endpoint_absent (db : Dict.t) (e : env) (task_id : string)
    (body : TaskUpdateBody) :
  Dict.contains db task_id = false ->
  update_endpoint e task_id body db =
    (Raise (match Validate.task_update body with
            | Some _ => HTTPException 404 (not_found_detail task_id)
            | None => RequestValidationError
            end), db).
Proof.
  intros H. unfold update_endpoint.
  destruct (Validate.task_update body); [|reflexivity].
  now apply update_task_absent.
Qed.

(* ===================================================================== *)
(** ** Read endpoints *)
(* ===================================================================== *)

(** C10. The read endpoints leave the store exactly as it was: a list
    query with any parameters (valid or not), a get-one request for any
    id (found or not), the statistics request, the health request and the
    root request, both as handlers and as requests routed by the
    application. *)
Theorem reads_leave_store (db : Dict.t) :
  (forall q, store_after (list_endpoint q) db = db) /\
  (forall st pr se l o, store_after (get_tasks st pr se l o) db = db) /\
  (forall task_id, store_after (get_task task_id) db = db) /\
  store_after get_statistics db = db /\
  (forall now, store_after (health_check now) db = db) /\
  (forall e q, store_after (app e (GET_tasks q)) db = db) /\
  (forall e task_id, store_after (app e (GET_task task_id)) db = db) /\
  (forall e, store_after (app e GET_stats) db = db) /\
  (forall e, store_after (app e GET_health) db = db) /\
  (forall e, store_after (app e GET_root) db = db).
Proof.
  repeat split; intros; simpl;
    rewrite ?as_response_store;
    auto using list_endpoint_store, get_tasks_store, get_task_store.
Qed.

(* ===================================================================== *)
(** ** Partial update *)
(* ===================================================================== *)

(** C3, as the code has it.  A successful update of a stored task
    stores, under the same id, a record in which every field the payload
    sets holds the payload's value, every field the payload leaves unset
    holds its old value, [id] and [created_at] are unchanged and
    [updated_at] is the clock reading of the request, whatever that
    reading is; the record is what the handler returns and what a later
    read of the id returns, and no other id is affected.  The handler does
    not compare the reading with the stored [updated_at]: the new value is
    not before the old one exactly when the reading is not. *)
Theorem update_changes_supplied_fields_only (db : Dict.t) (task_id : string)
    (now : datetime) (u : TaskUpdate) (old : Task) :
  Dict.get db task_id = Some old ->
  exists new : Task,
    update_task now task_id u db =
      (Return (mkTaskResponse true "Task updated successfully" new),
       Dict.set db task_id new) /\
    Dict.get (store_after (update_task now task_id u) db) task_id = Some new /\
    answer (get_task task_id) (store_after (update_task now task_id u) db) =
      Return (mkTaskResponse true "Task retrieved successfully" new) /\
    (forall other, other <> task_id ->
       Dict.get (store_after (update_task now task_id u) db) other =
       Dict.get db other) /\
    (forall v, tu_title u = Some v -> title new = v) /\
    (tu_title u = None -> title new = title old) /\
    (forall v, tu_description u = Some v -> description new = v) /\
    (tu_description u = None -> description new = description old) /\
    (forall v, tu_status u = Some v -> status new = v) /\
    (tu_status u = None -> status new = status old) /\
    (forall v, tu_priority u = Some v -> priority new = v) /\
    (tu_priority u = None -> priority new = priority old) /\
    (forall v, tu_due_date u = Some v -> due_date new = v) /\
    (tu_due_date u = None -> due_date new = due_date old) /\
    id new = id old /\
    created_at new = created_at old /\
    updated_at new = now /\
    ((updated_at old <= updated_at new)%Z <-> (updated_at old <= now)%Z).
Proof.
  intros Hget.
  exists (model_copy old u now).
  pose proof (update_task_present db now task_id u old Hget) as Hrun.
  unfold store_after, answer. rewrite Hrun. simpl.
  split; [reflexivity|].
  split; [apply DictFacts.get_set_same|].
  split.
  { rewrite (get_task_present _ task_id _ (DictFacts.get_set_same db task_id _)).
    reflexivity. }
  split; [intros other Hne; now apply DictFacts.get_set_other|].
  destruct u as [ti de st pr du]; simpl.
  repeat split; try (intros; subst; reflexivity); intros H; exact H.
Qed.

Lemma update_changes_supplied_fields_only_witness :
  exists new : Task,
    Dict.get (store_after
                (update_task (mk_datetime 2025 2 1 0 0 0) "task-001"
                   (mkTaskUpdate None None (Some (Some IN_PROGRESS)) None None))
                tasks_db0) "task-001" = Some new /\
    status new = Some IN_PROGRESS /\
    title new = Some "Setup Development Environment" /\
    updated_at new = mk_datetime 2025 2 1 0 0 0.
Proof.
  edestruct (update_changes_supplied_fields_only tasks_db0 "task-001"
               (mk_datetime 2025 2 1 0 0 0)
               (mkTaskUpdate None None (Some (Some IN_PROGRESS)) None None))
    as (new & _ & Hget & _ & _ & _ & Hti & _ & _ & Hst & _ & _ & _ & _ & _
        & _ & _ & Hup & _).
  - reflexivity.
  - exists new. split; [exact Hget|]. split; [|split].
    + apply Hst. reflexivity.
    + rewrite Hti; reflexivity.
    + exact Hup.
Defined.

(** C3, as stated, fails in its "hence not before its prior value": the
    reading is the wall clock's naive local time, which steps back (at the
    end of daylight saving time, or when the clock is set).  A task
    created at 02:30 and updated when the clock reads 02:00 of the same
    night is stored with an [updated_at] before the one it had, and before
    its [created_at]. *)
Lemma update_can_move_updated_at_back :
  let e1 := mkEnv (mk_datetime 2025 10 26 2 30 0) "0000abcd" in
  let e2 := mkEnv (mk_datetime 2025 10 26 2 0 0) "0000abcd" in
  let create :=
    POST_tasks (mkTaskCreateBody (Valid "Night shift") Omitted Omitted Omitted
                  Omitted) in
  let update :=
    PUT_task "task-0000abcd"
      (mkTaskUpdateBody Omitted Omitted (Valid "completed") Omitted Omitted) in
  let db := serve [(e1, create)] tasks_db0 in
  let db' := store_after (app e2 update) db in
  reachable db /\
  option_map updated_at (Dict.get db "task-0000abcd")
    = Some (mk_datetime 2025 10 26 2 30 0) /\
  option_map status (Dict.get db' "task-0000abcd") = Some (Some COMPLETED) /\
  option_map updated_at (Dict.get db' "task-0000abcd")
    = Some (mk_datetime 2025 10 26 2 0 0) /\
  option_map created_at (Dict.get db' "task-0000abcd")
    = Some (mk_datetime 2025 10 26 2 30 0) /\
  (mk_datetime 2025 10 26 2 0 0 < mk_datetime 2025 10 26 2 30 0)%Z /\
  ~ (forall (d : Dict.t) task_id now u old new,
       Dict.get d task_id = Some old ->
       Dict.get (store_after (update_task now task_id u) d) task_id = Some new ->
       (updated_at old <= updated_at new)%Z).
Proof.
  cbv zeta. split; [eexists; reflexivity|].
  repeat (split; [reflexivity|]).
  intros H.
  set (t := new_task (mk_datetime 2025 10 26 2 30 0) "0000abcd"
              (mkTaskCreate "Night shift" None PENDING MEDIUM None)).
  set (u := mkTaskUpdate None None (Some (Some COMPLETED)) None None).
  specialize (H (Dict.set tasks_db0 "task-0000abcd" t) "task-0000abcd"
                (mk_datetime 2025 10 26 2 0 0) u t
                (model_copy t u (mk_datetime 2025 10 26 2 0 0))
                eq_refl eq_refl).
  vm_compute in H. apply H; reflexivity.
Qed.

(** C5. In an update whose body validates, a field sent as [null] is
    stored as absent, and a field the body omits keeps its stored value:
    for [description] and [due_date], and likewise for the three other
    fields of the update model. *)
Theorem null_clears_omitted_keeps (db : Dict.t) (e : env) (task_id : string)
    (body : TaskUpdateBody) (u : TaskUpdate) (old : Task) :
  Dict.get db task_id = Some old ->
  Validate.task_update body = Some u ->
  exists new : Task,
    Dict.get (store_after (update_endpoint e task_id body) db) task_id
      = Some new /\
    (ub_description body = Null -> description new = None) /\
    (ub_description body = Omitted -> description new = description old) /\
    (ub_due_date body = Null -> due_date new = None) /\
    (ub_due_date body = Omitted -> due_date new = due_date old) /\
    (ub_title body = Null -> title new = None) /\
    (ub_title body = Omitted -> title new = title old) /\
    (ub_status body = Null -> status new = None) /\
    (ub_status body = Omitted -> status new = status old) /\
    (ub_priority body = Null -> priority new = None) /\
    (ub_priority body = Omitted -> priority new = priority old).
Proof.
  intros Hget Hval.
  exists (model_copy old u (now e)).
  unfold update_endpoint, store_after. rewrite Hval.
  rewrite (update_task_present db (now e) task_id u old Hget). simpl.
  split; [apply DictFacts.get_set_same|].
  destruct (validated_update body u Hval) as (Hti & Hde & Hst & Hpr & Hdu).
  repeat split; intros Hw.
  - simpl. now rewrite (@settable_null _ _ _ _ _ Hde Hw).
  - simpl. now rewrite (@settable_omitted _ _ _ _ _ Hde Hw).
  - simpl. now rewrite (@settable_null _ _ _ _ _ Hdu Hw).
  - simpl. now rewrite (@settable_omitted _ _ _ _ _ Hdu Hw).
  - simpl. now rewrite (@settable_null _ _ _ _ _ Hti Hw).
  - simpl. now rewrite (@settable_omitted _ _ _ _ _ Hti Hw).
  - simpl. now rewrite (@settable_null _ _ _ _ _ Hst Hw).
  - simpl. now rewrite (@settable_omitted _ _ _ _ _ Hst Hw).
  - simpl. now rewrite (@settable_null _ _ _ _ _ Hpr Hw).
  - simpl. now rewrite (@settable_omitted _ _ _ _ _ Hpr Hw).
Qed.

Lemma null_clears_omitted_keeps_witness :
  exists new : Task,
    Dict.get (store_after
                (update_endpoint (mkEnv (mk_datetime 2025 2 1 0 0 0) "00000000")
                   "task-001"
                   (mkTaskUpdateBody Omitted Null Omitted Omitted Omitted))
                tasks_db0) "task-001" = Some new /\
    description new = None /\
    due_date new = Some (mk_datetime 2025 1 15 10 0 0).
Proof.
  edestruct (null_clears_omitted_keeps tasks_db0
               (mkEnv (mk_datetime 2025 2 1 0 0 0) "00000000") "task-001"
               (mkTaskUpdateBody Omitted Null Omitted Omitted Omitted))
    as (new & Hget & Hnull & _ & _ & Hkeep & _).
  - reflexivity.
  - reflexivity.
  - exists new. split; [exact Hget|]. split.
    + apply Hnull. reflexivity.
    + rewrite Hkeep; reflexivity.
Defined.

(* ===================================================================== *)
(** ** What a request does to the store *)
(* ===================================================================== *)

(** A request leaves the store as it was, or files a new record under the
    generated id, or files the merged record under an id that is present,
    or removes an id that is present. *)
Lemma app_store (e : env) (r : request) (db : Dict.t) :
  store_after (app e r) db = db \/
  (exists body task,
     r = POST_tasks body /\ Validate.task_create body = Some task /\
     store_after (app e r) db =
       Dict.set db ("task-" ++ hex8 e)%string (new_task (now e) (hex8 e) task)) \/
  (exists task_id body u old,
     r = PUT_task task_id body /\ Validate.task_update body = Some u /\
     Dict.get db task_id = Some old /\
     store_after (app e r) db =
       Dict.set db task_id (model_copy old u (now e))) \/
  (exists task_id old,
     r = DELETE_task task_id /\ Dict.get db task_id = Some old /\
     store_after (app e r) db = Dict.remove db task_id).
Proof.
  destruct r as [| |q|task_id|body|task_id body|task_id|]; simpl;
    rewrite as_response_store.
  - now left.
  - now left.
  - left. apply list_endpoint_store.
  - left. apply get_task_store.
  - unfold create_endpoint.
    destruct (Validate.task_create body) as [task|] eqn:E; [|now left].
    right; left. exists body, task.
    repeat split; first [assumption | reflexivity].
  - unfold update_endpoint.
    destruct (Validate.task_update body) as [u|] eqn:E; [|now left].
    destruct (Dict.get db task_id) as [old|] eqn:G.
    + right; right; left. exists task_id, body, u, old.
      repeat split; try assumption.
      unfold store_after. now rewrite (update_task_present db _ _ u old G).
    + left. apply DictFacts.absent_get in G.
      unfold store_after. now rewrite update_task_absent.
  - destruct (Dict.get db task_id) as [old|] eqn:G.
    + right; right; right. exists task_id, old.
      repeat split; try assumption.
      unfold store_after. now rewrite (delete_task_present db _ old G).
    + left. apply DictFacts.absent_get in G.
      unfold store_after. now rewrite delete_task_absent.
  - now left.
Qed.

(** A property of the seeded store that every request preserves holds of
    every reachable store. *)
Lemma reachable_ind (P : Dict.t -> Prop) :
  P tasks_db0 ->
  (forall e r db, P db -> P (store_after (app e r) db)) ->
  forall db, reachable db -> P db.
Proof.
  intros H0 Hstep db [reqs <-].
  generalize dependent tasks_db0.
  induction reqs as [|[e r] rest IH]; intros d Hd; simpl; [exact Hd|].
  apply IH. now apply Hstep.
Qed.

Lemma keyed_set (db : Dict.t) (k : string) (v : Task) :
  keyed db -> id v = k -> keyed (Dict.set db k v).
Proof.
  intros [Hnd Hid] Hv. split; [now apply DictFacts.nodup_keys_set|].
  apply Forall_forall. intros [k2 v2] Hin.
  destruct (DictFacts.in_set _ _ _ _ _ Hin) as [[= -> ->]|Hold]; [exact Hv|].
  exact (proj1 (Forall_forall _ _) Hid _ Hold).
Qed.

Lemma keyed_remove (db : Dict.t) (k : string) :
  keyed db -> keyed (Dict.remove db k).
Proof.
  intros [Hnd Hid]. split; [now apply DictFacts.nodup_keys_remove|].
  apply Forall_forall. intros kv Hin.
  apply (proj1 (Forall_forall _ _) Hid).
  eapply DictFacts.in_remove; eassumption.
Qed.

Lemma keyed_get (db : Dict.t) (k : string) (v : Task) :
  keyed db -> Dict.get db k = Some v -> id v = k.
Proof.
  intros [_ Hid] Hget.
  exact (proj1 (Forall_forall _ _) Hid _ (DictFacts.get_in _ _ _ Hget)).
Qed.

Lemma keyed_start : keyed tasks_db0.
Proof.
  split.
  - repeat constructor; simpl; intuition discriminate.
  - repeat constructor.
Qed.

Lemma keyed_reachable (db : Dict.t) : reachable db -> keyed db.
Proof.
  apply reachable_ind; [exact keyed_start|].
  intros e r d Hd.
  destruct (app_store e r d)
    as [->|[(body & task & _ & _ & ->)|[(k & body & u & old & _ & _ & G & ->)
       |(k & old & _ & _ & ->)]]].
  - exact Hd.
  - now apply keyed_set.
  - apply keyed_set; [exact Hd|]. simpl. now apply keyed_get with (db := d).
  - now apply keyed_remove.
Qed.

Lemma keyed_ids (db : Dict.t) :
  keyed db -> map id (Dict.values db) = Dict.keys db.
Proof.
  intros [_ Hid]. unfold Dict.values, Dict.keys. rewrite map_map.
  apply map_ext_in. intros kv Hin.
  exact (proj1 (Forall_forall _ _) Hid _ Hin).
Qed.

(* ===================================================================== *)
(** ** Create and the uniqueness of ids *)
(* ===================================================================== *)

(** C6, as the code has it.  In every reachable store the ids of the
    records are pairwise distinct, before and after a create.  The handler
    files the new record under the generated id without testing that id
    against the store, and touches no other id.  When the generated id is
    not in the store the record is appended: the store grows by exactly
    one and every record already there is still there.  When the id is in
    the store the record filed under it is replaced and the size of the
    store does not change. *)
Theorem create_files_under_generated_id (db : Dict.t) (now : datetime)
    (hex8 : string) (task : TaskCreate) :
  reachable db ->
  NoDup (map id (Dict.values db)) /\
  NoDup (map id (Dict.values (store_after (create_task now hex8 task) db))) /\
  Dict.get (store_after (create_task now hex8 task) db) ("task-" ++ hex8)
    = Some (new_task now hex8 task) /\
  (forall k, k <> ("task-" ++ hex8)%string ->
     Dict.get (store_after (create_task now hex8 task) db) k = Dict.get db k) /\
  (Dict.contains db ("task-" ++ hex8) = false ->
     store_after (create_task now hex8 task) db =
       db ++ [(("task-" ++ hex8)%string, new_task now hex8 task)] /\
     Dict.len (store_after (create_task now hex8 task) db) = S (Dict.len db) /\
     forall k t, Dict.get db k = Some t ->
       Dict.get (store_after (create_task now hex8 task) db) k = Some t) /\
  (Dict.contains db ("task-" ++ hex8) = true ->
     Dict.len (store_after (create_task now hex8 task) db) = Dict.len db).
Proof.
  intros Hr.
  pose proof (keyed_reachable db Hr) as Hk.
  rewrite create_task_run. fold (new_task now hex8 task).
  assert (Hk' : keyed (Dict.set db ("task-" ++ hex8)%string
                         (new_task now hex8 task)))
    by now apply keyed_set.
  split; [rewrite (keyed_ids db Hk); exact (proj1 Hk)|].
  split; [rewrite (keyed_ids _ Hk'); exact (proj1 Hk')|].
  split; [apply DictFacts.get_set_same|].
  split; [intros k Hne; now apply DictFacts.get_set_other|].
  split.
  - intros Hfresh.
    split; [now apply DictFacts.set_absent|].
    split; [now apply DictFacts.len_set_absent|].
    intros k t Hget. rewrite DictFacts.get_set_other; [exact Hget|].
    intros ->. apply DictFacts.absent_get in Hfresh. congruence.
  - apply DictFacts.len_set_present.
Qed.

Lemma create_files_under_generated_id_witness :
  reachable tasks_db0 /\
  Dict.len (store_after
              (create_task (mk_datetime 2025 2 1 0 0 0) "0000abcd"
                 (mkTaskCreate "Minimal Task" None PENDING MEDIUM None))
              tasks_db0) = 4.
Proof.
  assert (H0 : reachable tasks_db0) by (exists []; reflexivity).
  split; [exact H0|].
  destruct (create_files_under_generated_id tasks_db0
              (mk_datetime 2025 2 1 0 0 0) "0000abcd"
              (mkTaskCreate "Minimal Task" None PENDING MEDIUM None) H0)
    as (_ & _ & _ & _ & Hfresh & _).
  apply Hfresh. reflexivity.
Defined.

(** C6, as stated, fails: the generated id is 32 random bits, and a create
    that draws an id already in the store replaces the record filed under
    it; the store does not grow. *)
Lemma create_on_taken_id_replaces :
  let e := mkEnv (mk_datetime 2025 2 1 0 0 0) "0000abcd" in
  let first := mkTaskCreateBody (Valid "First") Omitted Omitted Omitted Omitted in
  let second := mkTaskCreateBody (Valid "Second") Omitted Omitted Omitted Omitted in
  let db := serve [(e, POST_tasks first)] tasks_db0 in
  let db' := store_after (app e (POST_tasks second)) db in
  reachable db /\
  Dict.len db = 4 /\
  Dict.len db' = 4 /\
  option_map title (Dict.get db "task-0000abcd") = Some (Some "First") /\
  option_map title (Dict.get db' "task-0000abcd") = Some (Some "Second") /\
  ~ (forall (d : Dict.t) now hex8 task,
       Dict.len (store_after (create_task now hex8 task) d) = S (Dict.len d)).
Proof.
  cbv zeta. split; [eexists; reflexivity|].
  repeat (split; [reflexivity|]).
  intros H.
  specialize (H (serve [(mkEnv 0%Z "0000abcd",
                         POST_tasks (mkTaskCreateBody (Valid "First") Omitted
                                       Omitted Omitted Omitted))] tasks_db0)
                0%Z "0000abcd"
                (mkTaskCreate "Second" None PENDING MEDIUM None)).
  vm_compute in H. discriminate.
Qed.

(* ===================================================================== *)
(** ** Validation of the create body *)
(* ===================================================================== *)

Lemma status_of_value_none (v : string) :
  TaskStatus_.of_value v = None <->
  existsb (String.eqb v) Spec.status_values = false.
Proof.
  unfold TaskStatus_.of_value, Spec.status_values, TaskStatus_.members.
  cbn [find existsb TaskStatus_.value].
  rewrite !(String.eqb_sym v).
  destruct (String.eqb "pending" v), (String.eqb "in-progress" v),
    (String.eqb "completed" v), (String.eqb "cancelled" v); cbn [orb];
    split; congruence.
Qed.

Lemma priority_of_value_none (v : string) :
  TaskPriority_.of_value v = None <->
  existsb (String.eqb v) Spec.priority_values = false.
Proof.
  unfold TaskPriority_.of_value, Spec.priority_values, TaskPriority_.members.
  cbn [find existsb TaskPriority_.value].
  rewrite !(String.eqb_sym v).
  destruct (String.eqb "low" v), (String.eqb "medium" v),
    (String.eqb "high" v), (String.eqb "urgent" v); cbn [orb];
    split; congruence.
Qed.

Lemma title_refused (w : wire string) :
  Validate.required (Validate.constrained title_ok) w = None <->
  match w with
  | Omitted | Null | Invalid => True
  | Valid s => (Py.len s = 0 \/ 200 < Py.len s)%Z
  end.
Proof.
  destruct w as [| |s|]; simpl; try tauto.
  unfold Validate.constrained, title_ok, Py.len.
  destruct (Z.leb_spec 1 (Z.of_nat (String.length s)));
    destruct (Z.leb_spec (Z.of_nat (String.length s)) 200); simpl;
    split; intros; try discriminate; try reflexivity; lia.
Qed.

Lemma description_refused (w : wire string) :
  Validate.optional (Validate.constrained description_ok) w = None <->
  match w with
  | Omitted | Null => False
  | Valid s => (1000 < Py.len s)%Z
  | Invalid => True
  end.
Proof.
  destruct w as [| |s|]; simpl; try (split; [discriminate|tauto]); try tauto.
  unfold Validate.constrained, description_ok.
  destruct (Z.leb_spec (Py.len s) 1000); simpl;
    split; intros; try discriminate; try reflexivity; lia.
Qed.

Lemma enum_refused {E : Type} (of_value : string -> option E) (d : E)
    (values : list string) (w : wire string) :
  (forall v, of_value v = None <-> existsb (String.eqb v) values = false) ->
  Validate.defaulted of_value d w = None <-> Spec.outside values w = true.
Proof.
  intros H. destruct w as [| |v|]; simpl;
    try (split; [discriminate|discriminate]); try tauto.
  rewrite H, negb_true_iff. reflexivity.
Qed.

Lemma due_date_refused (w : wire datetime) :
  Validate.optional (@Some datetime) w = None <-> Spec.is_invalid w = true.
Proof.
  destruct w; simpl; split; intros; try discriminate; reflexivity.
Qed.

Lemma task_create_fields (b : TaskCreateBody) :
  Validate.task_create b = None <->
  Validate.required (Validate.constrained title_ok) (cb_title b) = None \/
  Validate.optional (Validate.constrained description_ok) (cb_description b)
    = None \/
  Validate.defaulted TaskStatus_.of_value PENDING (cb_status b) = None \/
  Validate.defaulted TaskPriority_.of_value MEDIUM (cb_priority b) = None \/
  Validate.optional (@Some datetime) (cb_due_date b) = None.
Proof.
  unfold Validate.task_create.
  destruct (Validate.required _ (cb_title b));
    destruct (Validate.optional _ (cb_description b));
    destruct (Validate.defaulted _ _ (cb_status b));
    destruct (Validate.defaulted _ _ (cb_priority b));
    destruct (Validate.optional _ (cb_due_date b));
    split; intros H; try discriminate; try reflexivity; try tauto;
    repeat destruct H as [H|H]; discriminate.
Qed.

(** Which bodies [TaskCreate] refuses. *)
Lemma task_create_none (b : TaskCreateBody) :
  Validate.task_create b = None <->
  Spec.listed_violation b || Spec.wrong_kind b = true.
Proof.
  rewrite task_create_fields, title_refused, description_refused,
    (enum_refused _ _ _ _ status_of_value_none),
    (enum_refused _ _ _ _ priority_of_value_none), due_date_refused.
  unfold Spec.listed_violation, Spec.wrong_kind, Spec.title_missing,
    Spec.title_empty_or_long, Spec.description_long.
  rewrite !orb_true_iff.
  destruct (cb_title b) as [| |s|], (cb_description b) as [| |d|]; simpl;
    rewrite ?orb_true_iff, ?Z.eqb_eq, ?Z.ltb_lt;
    intuition (try discriminate; try lia).
Qed.

(** C8, as the code has it.  Create answers with the validation error, and
    leaves the store as it was, exactly when the body has one of the
    listed defects (title missing, empty or longer than 200 characters;
    description longer than 1000; a status or a priority outside its four
    values) or holds a value that is not of its field's kind (a title or
    description that is not a string, a due date that is not a
    timestamp).  Every other body is accepted and its record is stored. *)
Theorem create_rejects_exactly_invalid_bodies (db : Dict.t) (e : env)
    (b : TaskCreateBody) :
  if Spec.listed_violation b || Spec.wrong_kind b
  then create_endpoint e b db = (Raise RequestValidationError, db)
  else exists task : TaskCreate,
         create_endpoint e b db =
           (Return (mkTaskResponse true "Task created successfully"
                      (new_task (now e) (hex8 e) task)),
            Dict.set db ("task-" ++ hex8 e)%string
              (new_task (now e) (hex8 e) task)).
Proof.
  pose proof (task_create_none b) as H.
  unfold create_endpoint.
  destruct (Spec.listed_violation b || Spec.wrong_kind b).
  - now rewrite (proj2 H eq_refl).
  - destruct (Validate.task_create b) as [task|].
    + exists task. reflexivity.
    + discriminate (proj1 H eq_refl).
Qed.

(** C8, as stated, fails: a body with a good title and a due date that is
    not a timestamp is rejected, and none of the listed defects holds. *)
Lemma create_rejects_malformed_due_date :
  let e := mkEnv (mk_datetime 2025 2 1 0 0 0) "0000abcd" in
  let b := mkTaskCreateBody (Valid "Test") Omitted Omitted Omitted Invalid in
  create_endpoint e b tasks_db0 = (Raise RequestValidationError, tasks_db0) /\
  Spec.listed_violation b = false.
Proof. split; reflexivity. Qed.

(* ===================================================================== *)
(** ** The constraints of the [Task] model across requests *)
(* ===================================================================== *)

Lemma values_set (d : Dict.t) (k : string) (v t : Task) :
  In t (Dict.values (Dict.set d k v)) -> t = v \/ In t (Dict.values d).
Proof.
  unfold Dict.values. intros Hin.
  apply in_map_iff in Hin as ([k2 v2] & <- & Hin).
  destruct (DictFacts.in_set _ _ _ _ _ Hin) as [[= -> ->]|Hold]; [now left|].
  right. apply in_map_iff. now exists (k2, v2).
Qed.

Lemma values_remove (d : Dict.t) (k : string) (t : Task) :
  In t (Dict.values (Dict.remove d k)) -> In t (Dict.values d).
Proof.
  unfold Dict.values. intros Hin.
  apply in_map_iff in Hin as (kv & <- & Hin).
  apply in_map_iff. exists kv. split; [reflexivity|].
  eapply DictFacts.in_remove; eassumption.
Qed.

Lemma values_get (d : Dict.t) (k : string) (t : Task) :
  Dict.get d k = Some t -> In t (Dict.values d).
Proof.
  intros H. apply in_map_iff. exists (k, t).
  split; [reflexivity|now apply DictFacts.get_in].
Qed.

Lemma valid_store_start : valid_store tasks_db0.
Proof.
  repeat constructor; simpl;
    try (eexists; split; reflexivity); try (eexists; reflexivity);
    try (intros d [= <-]; reflexivity);
    try (vm_compute; discriminate).
Qed.

Lemma validated_create (b : TaskCreateBody) (task : TaskCreate) :
  Validate.task_create b = Some task ->
  title_ok (tc_title task) = true /\
  forall d, tc_description task = Some d -> description_ok d = true.
Proof.
  unfold Validate.task_create.
  destruct (cb_title b) as [| |s|]; simpl; try discriminate.
  unfold Validate.constrained at 1.
  destruct (title_ok s) eqn:Hs; [|discriminate].
  destruct (Validate.optional _ (cb_description b)) as [de|] eqn:Hde;
    [|discriminate].
  destruct (Validate.defaulted _ _ (cb_status b)); [|discriminate].
  destruct (Validate.defaulted _ _ (cb_priority b)); [|discriminate].
  destruct (Validate.optional _ (cb_due_date b)); [|discriminate].
  intros [= <-]. simpl. split; [exact Hs|].
  intros d ->. destruct (cb_description b) as [| |s'|]; simpl in Hde;
    try discriminate.
  unfold Validate.constrained in Hde.
  destruct (description_ok s') eqn:Hd; [|discriminate].
  now injection Hde as ->.
Qed.

Lemma new_task_ok (now : datetime) (hex8 : string) (b : TaskCreateBody)
    (task : TaskCreate) :
  Validate.task_create b = Some task -> Task_ok (new_task now hex8 task).
Proof.
  intros H. destruct (validated_create b task H) as [Ht Hd].
  unfold Task_ok; simpl. repeat split; eauto. lia.
Qed.

(** What a validated field of the update model can hold. *)
Lemma settable_cases {A B : Type} (parse : A -> option B) (w : wire A)
    (f : option (option B)) :
  Validate.settable parse w = Some f ->
  match f with
  | None => w = Omitted
  | Some None => w = Null
  | Some (Some b) => exists a, w = Valid a /\ parse a = Some b
  end.
Proof.
  destruct w as [| |a|]; simpl; try (intros [= <-]; reflexivity);
    try discriminate.
  destruct (parse a) as [b|] eqn:E; [|discriminate].
  intros [= <-]. now exists a.
Qed.

Lemma constrained_ok (ok : string -> bool) (a b : string) :
  Validate.constrained ok a = Some b -> ok b = true.
Proof.
  unfold Validate.constrained. destruct (ok a) eqn:E; [|discriminate].
  now intros [= <-].
Qed.

Lemma model_copy_ok (old : Task) (b : TaskUpdateBody) (u : TaskUpdate)
    (now : datetime) :
  Task_ok old ->
  Validate.task_update b = Some u ->
  nulls_required b = false ->
  (created_at old <= now)%Z ->
  Task_ok (model_copy old u now).
Proof.
  intros (Hti & Hde & Hst & Hpr & _) Hval Hnull Hclock.
  destruct (validated_update b u Hval) as (Vti & Vde & Vst & Vpr & _).
  apply settable_cases in Vti, Vde, Vst, Vpr.
  unfold nulls_required in Hnull.
  apply orb_false_iff in Hnull as [Hnull Npr].
  apply orb_false_iff in Hnull as [Nti Nst].
  unfold Task_ok; simpl. repeat split.
  - destruct (tu_title u) as [[s|]|]; simpl.
    + destruct Vti as (a & _ & Ha). exists s.
      split; [reflexivity|]. eapply constrained_ok; eassumption.
    + rewrite Vti in Nti. discriminate.
    + exact Hti.
  - destruct (tu_description u) as [[s|]|]; simpl.
    + destruct Vde as (a & _ & Ha). intros d [= <-].
      eapply constrained_ok; eassumption.
    + discriminate.
    + exact Hde.
  - destruct (tu_status u) as [[s|]|]; simpl.
    + now exists s.
    + rewrite Vst in Nst. discriminate.
    + exact Hst.
  - destruct (tu_priority u) as [[p|]|]; simpl.
    + now exists p.
    + rewrite Vpr in Npr. discriminate.
    + exact Hpr.
  - exact Hclock.
Qed.

(** The constraints hold at start-up and survive every request that keeps
    to the model. *)
Lemma valid_store_step (db : Dict.t) (e : env) (r : request) :
  valid_store db -> respects_model db e r ->
  valid_store (store_after (app e r) db).
Proof.
  unfold valid_store. intros Hdb Hr.
  destruct (app_store e r db)
    as [->|[(body & task & _ & V & ->)|[(k & body & u & old & -> & V & G & ->)
       |(k & old & _ & _ & ->)]]]; [exact Hdb| | |];
    apply Forall_forall; intros t Hin.
  - apply values_set in Hin as [->|Hin].
    + eapply new_task_ok; eassumption.
    + exact (proj1 (Forall_forall _ _) Hdb _ Hin).
  - apply values_set in Hin as [->|Hin].
    + destruct Hr as [Hnull Hclock].
      eapply model_copy_ok; eauto.
      exact (proj1 (Forall_forall _ _) Hdb _ (values_get _ _ _ G)).
    + exact (proj1 (Forall_forall _ _) Hdb _ Hin).
  - apply values_remove in Hin.
    exact (proj1 (Forall_forall _ _) Hdb _ Hin).
Qed.

(** C2 at its failing input.  The seeded store satisfies the constraints;
    a [PUT] on [task-001] whose body is [{"title": null}] validates, and
    the record it stores has no title: the store it leaves is reachable
    and does not satisfy the constraints of the [Task] model. *)
Theorem update_stores_null_title :
  let e := mkEnv (mk_datetime 2025 2 1 0 0 0) "0000abcd" in
  let body := mkTaskUpdateBody Null Omitted Omitted Omitted Omitted in
  let db := serve [(e, PUT_task "task-001" body)] tasks_db0 in
  valid_store tasks_db0 /\
  reachable db /\
  (exists r, answer (update_endpoint e "task-001" body) tasks_db0 = Return r) /\
  option_map title (Dict.get db "task-001") = Some None /\
  ~ valid_store db.
Proof.
  cbv zeta. split; [exact valid_store_start|].
  split; [eexists; reflexivity|].
  split; [eexists; reflexivity|].
  split; [reflexivity|].
  intros H. inversion H as [|t rest Ht _]; subst.
  destruct Ht as [[s [Hs _]] _]. discriminate Hs.
Qed.

Lemma valid_store_serve (reqs : list (env * request)) (db : Dict.t) :
  valid_store db -> respectful reqs db -> valid_store (serve reqs db).
Proof.
  revert db. induction reqs as [|[e r] rest IH]; intros db Hdb Hr; simpl.
  - exact Hdb.
  - destruct Hr as [Hr Hrest]. apply IH; [|exact Hrest].
    now apply valid_store_step.
Qed.

(** A store that satisfies the constraints has a title, a status and a
    priority in every record. *)
Lemma valid_store_titled_typed (db : Dict.t) :
  valid_store db -> titled db /\ typed db.
Proof.
  unfold valid_store, titled, typed. intros H.
  split; (eapply Forall_impl; [|exact H]); simpl;
    intros t ((s & Hs & _) & _ & (st & Hst) & (p & Hp) & _);
    repeat split; congruence.
Qed.

(* ===================================================================== *)
(** ** Statistics *)
(* ===================================================================== *)

(** The statistics answer, spelled out. *)
Lemma get_statistics_run (db : Dict.t) :
  get_statistics db =
  (Return (mkStatistics (length (Dict.values db))
     [("pending", length (filter (status_is PENDING) (Dict.values db)));
      ("in-progress", length (filter (status_is IN_PROGRESS) (Dict.values db)));
      ("completed", length (filter (status_is COMPLETED) (Dict.values db)));
      ("cancelled", length (filter (status_is CANCELLED) (Dict.values db)))]
     [("low", length (filter (priority_is LOW) (Dict.values db)));
      ("medium", length (filter (priority_is MEDIUM) (Dict.values db)));
      ("high", length (filter (priority_is HIGH) (Dict.values db)));
      ("urgent", length (filter (priority_is URGENT) (Dict.values db)))]),
   db).
Proof. reflexivity. Qed.

Lemma status_counts_sum (tasks : list Task) :
  Forall (fun t => status t <> None) tasks ->
  length (filter (status_is PENDING) tasks)
  + (length (filter (status_is IN_PROGRESS) tasks)
     + (length (filter (status_is COMPLETED) tasks)
        + (length (filter (status_is CANCELLED) tasks) + 0)))
  = length tasks.
Proof.
  induction 1 as [|t r Ht _ IH]; [reflexivity|].
  unfold status_is in *. simpl.
  destruct (status t) as [[]|]; simpl; try lia. congruence.
Qed.

Lemma priority_counts_sum (tasks : list Task) :
  Forall (fun t => priority t <> None) tasks ->
  length (filter (priority_is LOW) tasks)
  + (length (filter (priority_is MEDIUM) tasks)
     + (length (filter (priority_is HIGH) tasks)
        + (length (filter (priority_is URGENT) tasks) + 0)))
  = length tasks.
Proof.
  induction 1 as [|t r Ht _ IH]; [reflexivity|].
  unfold priority_is in *. simpl.
  destruct (priority t) as [[]|]; simpl; try lia. congruence.
Qed.

(** On a store whose records all have a status and a priority, the
    statistics are as the specification says: the total is the size of the
    store, each grouping has its four enum values as keys, and the counts
    of each grouping add up to the total. *)
Lemma statistics_of_typed_store (db : Dict.t) :
  typed db ->
  exists r : Statistics,
    get_statistics db = (Return r, db) /\
    total_tasks r = Dict.len db /\
    map fst (by_status r) = map TaskStatus_.value TaskStatus_.members /\
    map fst (by_priority r) = map TaskPriority_.value TaskPriority_.members /\
    counts_sum (by_status r) = total_tasks r /\
    counts_sum (by_priority r) = total_tasks r.
Proof.
  intros Ht. eexists. split; [apply get_statistics_run|].
  unfold counts_sum, Dict.len, Dict.values; simpl.
  split; [apply length_map|].
  split; [reflexivity|]. split; [reflexivity|].
  split.
  - apply status_counts_sum. eapply Forall_impl; [|exact Ht].
    simpl. tauto.
  - apply priority_counts_sum. eapply Forall_impl; [|exact Ht].
    simpl. tauto.
Qed.

(** C9 at its failing input.  After a [PUT] on [task-001] whose body is
    [{"status": null}], the statistics count three tasks and the counts by
    status add up to two: the record without a status is in no group. *)
Theorem statistics_miss_null_status :
  let e := mkEnv (mk_datetime 2025 2 1 0 0 0) "0000abcd" in
  let body := mkTaskUpdateBody Omitted Omitted Null Omitted Omitted in
  let db := serve [(e, PUT_task "task-001" body)] tasks_db0 in
  reachable db /\
  exists r : Statistics,
    answer get_statistics db = Return r /\
    total_tasks r = 3 /\
    by_status r =
      [("pending", 1); ("in-progress", 1); ("completed", 0); ("cancelled", 0)] /\
    counts_sum (by_status r) = 2 /\
    counts_sum (by_priority r) = 3.
Proof.
  cbv zeta. split; [eexists; reflexivity|].
  eexists. split; [reflexivity|]. repeat split.
Qed.

(* ===================================================================== *)
(** ** The list endpoint *)
(* ===================================================================== *)

Lemma in_slice {A : Type} (l : list A) (start stop : Z) (x : A) :
  In x (Py.slice l start stop) -> In x l.
Proof.
  unfold Py.slice. intros H.
  set (lo := Z.to_nat (Py.adjust (Z.of_nat (length l)) start)) in *.
  set (k := Z.to_nat _) in H.
  rewrite <- (firstn_skipn lo l). apply in_or_app. right.
  rewrite <- (firstn_skipn k (skipn lo l)). apply in_or_app. now left.
Qed.

Lemma str_in_empty_hay (n : string) :
  Py.truthy n = true -> Py.str_in n EmptyString = false.
Proof. destruct n; [discriminate|reflexivity]. Qed.

(** On a record with a title the search condition does not raise, and it
    decides the specification's match. *)
Lemma search_cond_titled (x : string) (t : Task) :
  Py.truthy x = true -> title t <> None ->
  search_cond (Py.lower x) t = Return (Spec.search_match x t).
Proof.
  intros Hx Ht. unfold search_cond, Spec.search_match.
  destruct (title t) as [ti|]; [|congruence].
  destruct (Py.str_in (Py.lower x) (Py.lower ti)); [reflexivity|].
  destruct (description t) as [d|]; [|reflexivity].
  destruct d as [|c d]; [|reflexivity]. cbn [Py.truthy Py.lower orb].
  rewrite str_in_empty_hay; [reflexivity|].
  now rewrite PyFacts.lower_truthy.
Qed.

Lemma comprehension_titled (x : string) (l : list Task) :
  Py.truthy x = true -> Forall (fun t => title t <> None) l ->
  comprehension (search_cond (Py.lower x)) l
  = Return (filter (Spec.search_match x) l).
Proof.
  intros Hx. induction 1 as [|t r Ht _ IH]; [reflexivity|].
  simpl. rewrite (search_cond_titled x t Hx Ht), IH. reflexivity.
Qed.

(** What a comprehension keeps passed its condition. *)
Lemma comprehension_kept {A : Type} (cond : A -> outcome bool)
    (l kept : list A) :
  comprehension cond l = Return kept ->
  forall x, In x kept -> In x l /\ cond x = Return true.
Proof.
  revert kept. induction l as [|a r IH]; simpl; intros kept H x Hin.
  - injection H as <-. destruct Hin.
  - destruct (cond a) as [b|] eqn:Ca; [|discriminate].
    destruct (comprehension cond r) as [r'|]; [|discriminate].
    injection H as <-.
    destruct b; [destruct Hin as [<-|Hin]|].
    + split; [now left|exact Ca].
    + destruct (IH r' eq_refl x Hin). split; [now right|assumption].
    + destruct (IH r' eq_refl x Hin). split; [now right|assumption].
Qed.

Lemma filter_all {A : Type} (f : A -> bool) (l : list A) :
  (forall x, In x l -> f x = true) -> filter f l = l.
Proof.
  induction l as [|a r IH]; intros H; [reflexivity|]. simpl.
  rewrite (H a (or_introl eq_refl)), IH; [reflexivity|].
  intros x Hx. apply H. now right.
Qed.

Lemma Forall_filter_if {A : Type} (P : Task -> Prop) (p : option A)
    (f : A -> Task -> bool) (l : list Task) :
  Forall P l -> Forall P (Spec.filter_if p f l).
Proof.
  intros H. destruct p as [a|]; simpl; [|exact H].
  apply Forall_forall. intros t Hin. apply filter_In in Hin as [Hin _].
  exact (proj1 (Forall_forall _ _) H _ Hin).
Qed.

(** The list handler against the specification's page: with no search
    parameter, or on a store whose records all have a title, the handler
    returns the page of 4.2 and the length of that page as the count. *)
Lemma get_tasks_page (db : Dict.t) (st : option TaskStatus)
    (pr : option TaskPriority) (se : option string) (limit offset : Z) :
  se = None \/ titled db ->
  (1 <= limit <= 100)%Z -> (0 <= offset)%Z ->
  get_tasks st pr se limit offset db =
  (Return (mkTaskListResponse true
             (length (Spec.page (Dict.values db) st pr se limit offset))
             (Spec.page (Dict.values db) st pr se limit offset)),
   db).
Proof.
  intros Hse Hl Ho.
  unfold get_tasks, bind, read, Spec.page.
  fold (Spec.filter_if st status_is (Dict.values db)).
  set (l1 := Spec.filter_if st status_is (Dict.values db)).
  fold (Spec.filter_if pr priority_is l1).
  set (l2 := Spec.filter_if pr priority_is l1).
  assert (Hsearch :
    match se with
    | Some s => if Py.truthy s
                then lift (comprehension (search_cond (Py.lower s)) l2)
                else ret l2
    | None => ret l2
    end db = (Return (Spec.filter_if se Spec.search_match l2), db)).
  { destruct se as [s|]; [|reflexivity].
    destruct Hse as [Hse|Ht]; [discriminate|].
    assert (Ht2 : Forall (fun t => title t <> None) l2)
      by (subst l2 l1; now repeat apply Forall_filter_if).
    destruct (Py.truthy s) eqn:Hs.
    - unfold lift. now rewrite comprehension_titled.
    - destruct s; [|discriminate]. unfold ret. simpl.
      rewrite filter_all; [reflexivity|].
      intros t Hin. unfold Spec.search_match.
      pose proof (proj1 (Forall_forall _ _) Ht2 _ Hin) as Hti.
      cbv beta in Hti.
      destruct (title t); [|congruence].
      simpl. now rewrite PyFacts.str_in_empty. }
  rewrite Hsearch. unfold ret.
  rewrite PyFacts.slice_page by lia. reflexivity.
Qed.

(** C1 at its failing input.  After a [PUT] on [task-001] whose body is
    [{"title": null}], a list query with a search text does not return a
    page: the search comprehension raises on the record without a title. *)
Theorem list_with_search_raises_on_null_title :
  let e := mkEnv (mk_datetime 2025 2 1 0 0 0) "0000abcd" in
  let body := mkTaskUpdateBody Null Omitted Omitted Omitted Omitted in
  let db := serve [(e, PUT_task "task-001" body)] tasks_db0 in
  let q := mkTaskQuery None None (Some "api") None None in
  reachable db /\
  answer (list_endpoint q) db = Raise AttributeError /\
  answer (app e (GET_tasks q)) db = Raise AttributeError /\
  answer (get_tasks None None (Some "api") 100 0) db = Raise AttributeError.
Proof.
  cbv zeta. split; [eexists; reflexivity|]. repeat split.
Qed.

(** Every record a search returns matches it: when the search text is not
    empty, on any store; when it is empty, for the records with a title. *)
Lemma search_results_appear (db : Dict.t) (st : option TaskStatus)
    (pr : option TaskPriority) (x : string) (limit offset : Z)
    (r : TaskListResponse) :
  answer (get_tasks st pr (Some x) limit offset) db = Return r ->
  forall t, In t (tl_data r) ->
    Py.truthy x = true \/ title t <> None -> Spec.appears x t.
Proof.
  unfold answer, get_tasks, bind, read. cbn [fst snd].
  set (l2 := match pr with Some _ => _ | None => _ end).
  destruct (Py.truthy x) eqn:Hx.
  - unfold lift.
    destruct (comprehension _ l2) as [kept|] eqn:Hc; [|discriminate].
    unfold ret; cbn [fst]. intros [= <-] t Hin _. cbn [tl_data] in Hin.
    apply in_slice in Hin.
    destruct (comprehension_kept _ _ _ Hc t Hin) as [_ Hcond].
    unfold search_cond in Hcond. unfold Spec.appears, Spec.occurs_ci.
    destruct (title t) as [ti|]; [|discriminate].
    destruct (Py.str_in (Py.lower x) (Py.lower ti)) eqn:Hti.
    + left. exists ti. split; [reflexivity|].
      now apply PyFacts.str_in_occurs.
    + destruct (description t) as [d|]; [|discriminate].
      destruct (Py.truthy d); [|discriminate].
      injection Hcond as Hd.
      right. exists d. split; [reflexivity|].
      now apply PyFacts.str_in_occurs.
  - unfold ret; cbn [fst]. intros [= <-] t _ [?|Hti]; [discriminate|].
    destruct x; [|discriminate].
    destruct (title t) as [ti|] eqn:E; [|congruence].
    left. exists ti. split; [exact E|].
    exists EmptyString, (Py.lower ti). reflexivity.
Qed.

(** C7 at its failing input.  After a [PUT] on [task-001] whose body is
    [{"title": null, "description": null}], a list query with the empty
    search text returns that record, which has neither a title nor a
    description for the text to appear in. *)
Theorem empty_search_returns_record_without_text :
  let e := mkEnv (mk_datetime 2025 2 1 0 0 0) "0000abcd" in
  let body := mkTaskUpdateBody Null Null Omitted Omitted Omitted in
  let db := serve [(e, PUT_task "task-001" body)] tasks_db0 in
  let q := mkTaskQuery None None (Some "") None None in
  reachable db /\
  exists (r : TaskListResponse) (t : Task),
    answer (list_endpoint q) db = Return r /\
    In t (tl_data r) /\
    id t = "task-001" /\ title t = None /\ description t = None /\
    ~ Spec.appears "" t.
Proof.
  cbv zeta. split; [eexists; reflexivity|].
  eexists. eexists. split; [reflexivity|].
  split; [left; reflexivity|]. repeat split.
  intros [(s & Hs & _)|(d & Hd & _)]; discriminate.
Qed.

(* ===================================================================== *)
(** ** More facts about the dictionary *)
(* ===================================================================== *)

Module DictMore.

Lemma contains_set (d : Dict.t) (k : string) (v : Task) :
  Dict.contains (Dict.set d k v) k = true.
Proof.
  apply DictFacts.contains_get. exists v. apply DictFacts.get_set_same.
Qed.

Lemma set_set (d : Dict.t) (k : string) (v v' : Task) :
  Dict.set (Dict.set d k v) k v' = Dict.set d k v'.
Proof.
  induction d as [|[k0 v0] r IH]; simpl.
  - now rewrite String.eqb_refl.
  - destruct (String.eqb k0 k) eqn:E; simpl; rewrite E; [reflexivity|].
    now rewrite IH.
Qed.

Lemma len_remove_present (d : Dict.t) (k : string) :
  Dict.contains d k = true -> S (Dict.len (Dict.remove d k)) = Dict.len d.
Proof.
  unfold Dict.len.
  induction d as [|[k0 v0] r IH]; simpl; [discriminate|].
  destruct (String.eqb k0 k); simpl; [reflexivity|].
  intros H. now rewrite IH.
Qed.

Lemma get_remove_other (d : Dict.t) (k k2 : string) :
  k2 <> k -> Dict.get (Dict.remove d k) k2 = Dict.get d k2.
Proof.
  intros Hne. induction d as [|[k0 v0] r IH]; simpl; [reflexivity|].
  destruct (String.eqb_spec k0 k) as [->|_]; simpl.
  - destruct (String.eqb_spec k k2); [congruence|reflexivity].
  - now rewrite IH.
Qed.

Lemma remove_absent (d : Dict.t) (k : string) :
  Dict.contains d k = false -> Dict.remove d k = d.
Proof.
  induction d as [|[k0 v0] r IH]; simpl; [reflexivity|].
  destruct (String.eqb k0 k); simpl; [discriminate|].
  intros H. now rewrite IH.
Qed.

Lemma remove_app_absent (d : Dict.t) (k : string) (v : Task) :
  Dict.contains d k = false -> Dict.remove (d ++ [(k, v)]) k = d.
Proof.
  induction d as [|[k0 v0] r IH]; simpl.
  - now rewrite String.eqb_refl.
  - destruct (String.eqb k0 k); simpl; [discriminate|].
    intros H. now rewrite IH.
Qed.

Lemma remove_set_present (d : Dict.t) (k : string) (v : Task) :
  Dict.contains d k = true ->
  Dict.remove (Dict.set d k v) k = Dict.remove d k.
Proof.
  induction d as [|[k0 v0] r IH]; simpl; [discriminate|].
  destruct (String.eqb k0 k) eqn:E; simpl; rewrite E; [reflexivity|].
  intros H. now rewrite IH.
Qed.

Lemma values_set_absent (d : Dict.t) (k : string) (v : Task) :
  Dict.contains d k = false ->
  Dict.values (Dict.set d k v) = Dict.values d ++ [v].
Proof.
  intros H. rewrite (DictFacts.set_absent d k v H).
  unfold Dict.values. now rewrite map_app.
Qed.

End DictMore.

(* ===================================================================== *)
(** ** Delete *)
(* ===================================================================== *)

(** X1. Deleting an id that is in a reachable store answers with the
    title of the deleted record and its id, makes the store one record
    smaller, and leaves every other id as it was; after it, a read and a
    second delete of that id are both answered 404. *)
Theorem delete_then_not_found (db : Dict.t) (task_id : string) (t : Task) :
  reachable db ->
  Dict.get db task_id = Some t ->
  answer (delete_task task_id) db =
    Return (mkDeleteResponse true
              ("Task '" ++ format_title t ++ "' deleted successfully")
              task_id) /\
  S (Dict.len (store_after (delete_task task_id) db)) = Dict.len db /\
  (forall k, k <> task_id ->
     Dict.get (store_after (delete_task task_id) db) k = Dict.get db k) /\
  answer (get_task task_id) (store_after (delete_task task_id) db) =
    Raise (HTTPException 404 ("Task with ID '" ++ task_id ++ "' not found")) /\
  answer (delete_task task_id) (store_after (delete_task task_id) db) =
    Raise (HTTPException 404 ("Task with ID '" ++ task_id ++ "' not found")).
Proof.
  intros Hr Hget.
  pose proof (keyed_reachable db Hr) as [Hnd _].
  assert (Hc : Dict.contains db task_id = true)
    by (apply DictFacts.contains_get; eauto).
  unfold answer, store_after.
  rewrite (delete_task_present db task_id t Hget). cbn [fst snd].
  assert (Hgone : Dict.contains (Dict.remove db task_id) task_id = false)
    by (apply DictFacts.absent_get; now apply DictFacts.get_remove_same).
  rewrite (get_task_absent _ task_id Hgone).
  rewrite (delete_task_absent _ task_id Hgone).
  split; [reflexivity|].
  split; [now apply DictMore.len_remove_present|].
  split; [intros k Hne; now apply DictMore.get_remove_other|].
  split; reflexivity.
Qed.

Lemma delete_then_not_found_witness :
  answer (get_task "task-002") (store_after (delete_task "task-002") tasks_db0)
  = Raise (HTTPException 404 "Task with ID 'task-002' not found").
Proof.
  edestruct (delete_then_not_found tasks_db0 "task-002")
    as (_ & _ & _ & H & _).
  - exists []. reflexivity.
  - reflexivity.
  - exact H.
Defined.

(* ===================================================================== *)
(** ** Enum values on the wire *)
(* ===================================================================== *)

(** X12. The wire values of the two enums are pairwise distinct, and
    reading a wire value back gives the member it came from: [of_value]
    after [value] is the identity, and a string that [of_value] accepts is
    the value of the member it yields. *)
Theorem enum_values_round_trip :
  (forall s, TaskStatus_.of_value (TaskStatus_.value s) = Some s) /\
  (forall v s, TaskStatus_.of_value v = Some s -> TaskStatus_.value s = v) /\
  (forall p, TaskPriority_.of_value (TaskPriority_.value p) = Some p) /\
  (forall v p, TaskPriority_.of_value v = Some p -> TaskPriority_.value p = v) /\
  NoDup (map TaskStatus_.value TaskStatus_.members) /\
  NoDup (map TaskPriority_.value TaskPriority_.members).
Proof.
  split; [intros []; reflexivity|].
  split.
  { intros v s H. apply find_some in H as [_ H]. now apply String.eqb_eq. }
  split; [intros []; reflexivity|].
  split.
  { intros v p H. apply find_some in H as [_ H]. now apply String.eqb_eq. }
  split; repeat constructor; simpl; intuition discriminate.
Qed.

Lemma status_value_of (v : string) (s : TaskStatus) :
  TaskStatus_.of_value v = Some s -> TaskStatus_.value s = v.
Proof. intros H. apply find_some in H as [_ H]. now apply String.eqb_eq. Qed.

Lemma priority_value_of (v : string) (p : TaskPriority) :
  TaskPriority_.of_value v = Some p -> TaskPriority_.value p = v.
Proof. intros H. apply find_some in H as [_ H]. now apply String.eqb_eq. Qed.

(* ===================================================================== *)
(** ** Create, then read or delete *)
(* ===================================================================== *)

Lemma validated_create_fields (b : TaskCreateBody) (task : TaskCreate) :
  Validate.task_create b = Some task ->
  Validate.required (Validate.constrained title_ok) (cb_title b)
    = Some (tc_title task) /\
  Validate.optional (Validate.constrained description_ok) (cb_description b)
    = Some (tc_description task) /\
  Validate.defaulted TaskStatus_.of_value PENDING (cb_status b)
    = Some (tc_status task) /\
  Validate.defaulted TaskPriority_.of_value MEDIUM (cb_priority b)
    = Some (tc_priority task) /\
  Validate.optional (@Some datetime) (cb_due_date b)
    = Some (tc_due_date task).
Proof.
  unfold Validate.task_create.
  destruct (Validate.required _ (cb_title b)); [|discriminate].
  destruct (Validate.optional _ (cb_description b)); [|discriminate].
  destruct (Validate.defaulted _ _ (cb_status b)); [|discriminate].
  destruct (Validate.defaulted _ _ (cb_priority b)); [|discriminate].
  destruct (Validate.optional _ (cb_due_date b)); [|discriminate].
  intros [= <-]. simpl. repeat split.
Qed.

Lemma constrained_same (ok : string -> bool) (a b : string) :
  Validate.constrained ok a = Some b -> a = b.
Proof.
  unfold Validate.constrained. destruct (ok a); [|discriminate].
  now intros [= <-].
Qed.

(** X2. A body that create accepts is stored as a record whose id is
    [task-] followed by the generated digits, whose title is the body's,
    whose status and priority are the body's or, when the body omits
    them, [pending] and [medium], whose description and due date are the
    body's or absent, and whose two timestamps are the clock reading; the
    record satisfies the constraints of the model, it is the data of the
    answer, and a read of its id returns it. *)
Theorem create_then_get (db : Dict.t) (e : env) (b : TaskCreateBody) :
  Spec.listed_violation b || Spec.wrong_kind b = false ->
  exists (t : Task) (s : string),
    create_endpoint e b db =
      (Return (mkTaskResponse true "Task created successfully" t),
       Dict.set db ("task-" ++ hex8 e) t) /\
    answer (get_task ("task-" ++ hex8 e))
           (store_after (create_endpoint e b) db) =
      Return (mkTaskResponse true "Task retrieved successfully" t) /\
    id t = ("task-" ++ hex8 e)%string /\
    cb_title b = Valid s /\ title t = Some s /\
    (cb_status b = Omitted -> status t = Some PENDING) /\
    (forall v, cb_status b = Valid v ->
       exists st, status t = Some st /\ TaskStatus_.value st = v) /\
    (cb_priority b = Omitted -> priority t = Some MEDIUM) /\
    (forall v, cb_priority b = Valid v ->
       exists p, priority t = Some p /\ TaskPriority_.value p = v) /\
    (forall d, cb_description b = Valid d -> description t = Some d) /\
    (cb_description b = Omitted \/ cb_description b = Null ->
       description t = None) /\
    (forall d, cb_due_date b = Valid d -> due_date t = Some d) /\
    (cb_due_date b = Omitted \/ cb_due_date b = Null -> due_date t = None) /\
    created_at t = now e /\ updated_at t = now e /\
    Task_ok t.
Proof.
  intros Hok.
  destruct (Validate.task_create b) as [task|] eqn:V;
    [|apply task_create_none in V; congruence].
  destruct (validated_create_fields b task V) as (Vti & Vde & Vst & Vpr & Vdu).
  assert (Hti : cb_title b = Valid (tc_title task)).
  { destruct (cb_title b) as [| |s|]; simpl in Vti; try discriminate.
    now rewrite (constrained_same _ _ _ Vti). }
  exists (new_task (now e) (hex8 e) task), (tc_title task).
  unfold create_endpoint, answer, store_after. rewrite V. cbn [fst snd].
  split; [reflexivity|].
  split.
  { change (snd (create_task (now e) (hex8 e) task db))
      with (Dict.set db ("task-" ++ hex8 e)%string
              (new_task (now e) (hex8 e) task)).
    now rewrite (get_task_present _ _ _ (DictFacts.get_set_same db _ _)). }
  split; [reflexivity|]. split; [exact Hti|]. split; [reflexivity|].
  simpl.
  split; [intros H; rewrite H in Vst; simpl in Vst; congruence|].
  split.
  { intros v H. rewrite H in Vst. simpl in Vst.
    exists (tc_status task). split; [reflexivity|].
    now apply status_value_of. }
  split; [intros H; rewrite H in Vpr; simpl in Vpr; congruence|].
  split.
  { intros v H. rewrite H in Vpr. simpl in Vpr.
    exists (tc_priority task). split; [reflexivity|].
    now apply priority_value_of. }
  split.
  { intros d H. rewrite H in Vde. simpl in Vde.
    destruct (Validate.constrained description_ok d) as [d'|] eqn:C;
      [|discriminate].
    apply constrained_same in C. congruence. }
  split; [intros [H|H]; rewrite H in Vde; simpl in Vde; congruence|].
  split; [intros d H; rewrite H in Vdu; simpl in Vdu; congruence|].
  split; [intros [H|H]; rewrite H in Vdu; simpl in Vdu; congruence|].
  split; [reflexivity|]. split; [reflexivity|].
  now apply (new_task_ok (now e) (hex8 e) b task).
Qed.

Lemma create_then_get_witness :
  exists t : Task,
    answer (get_task "task-0000abcd")
      (store_after
         (create_endpoint (mkEnv (mk_datetime 2025 2 1 0 0 0) "0000abcd")
            (mkTaskCreateBody (Valid "Minimal Task") Omitted Omitted Omitted
               Omitted))
         tasks_db0)
    = Return (mkTaskResponse true "Task retrieved successfully" t) /\
    status t = Some PENDING /\ priority t = Some MEDIUM.
Proof.
  destruct (create_then_get tasks_db0
              (mkEnv (mk_datetime 2025 2 1 0 0 0) "0000abcd")
              (mkTaskCreateBody (Valid "Minimal Task") Omitted Omitted Omitted
                 Omitted) eq_refl)
    as (t & s & _ & Hget & _ & _ & _ & Hst & _ & Hpr & _).
  exists t. split; [exact Hget|]. split; [now apply Hst|now apply Hpr].
Defined.

(** X3. A create followed by a delete of the created id.  When the
    generated id was not in the store, the store is back to what it was
    before the create, order included.  When the id was in the store, the
    record that was filed under it is gone as well: the store is the one
    before the create without that id.  In both cases the delete names the
    title of the created record. *)
Theorem create_then_delete (db : Dict.t) (now : datetime) (hex8 : string)
    (task : TaskCreate) :
  answer (delete_task ("task-" ++ hex8))
         (store_after (create_task now hex8 task) db) =
    Return (mkDeleteResponse true
              ("Task '" ++ tc_title task ++ "' deleted successfully")
              ("task-" ++ hex8)) /\
  (Dict.contains db ("task-" ++ hex8) = false ->
     store_after (delete_task ("task-" ++ hex8))
                 (store_after (create_task now hex8 task) db) = db) /\
  (Dict.contains db ("task-" ++ hex8) = true ->
     store_after (delete_task ("task-" ++ hex8))
                 (store_after (create_task now hex8 task) db)
     = Dict.remove db ("task-" ++ hex8)).
Proof.
  rewrite create_task_run. fold (new_task now hex8 task).
  unfold answer, store_after.
  rewrite (delete_task_present _ _ _ (DictFacts.get_set_same db _ _)).
  cbn [fst snd]. split; [reflexivity|]. split; intros H.
  - rewrite (DictFacts.set_absent db _ _ H).
    now apply DictMore.remove_app_absent.
  - now apply DictMore.remove_set_present.
Qed.

(* ===================================================================== *)
(** ** Updates, one after the other *)
(* ===================================================================== *)

Lemma override_override {A : Type} (u2 u1 : option A) (old : A) :
  (u1 <> None -> u2 <> None) ->
  override u2 (override u1 old) = override u2 old.
Proof.
  destruct u2, u1; simpl; try reflexivity.
  intros H. exfalso. apply H; [discriminate|reflexivity].
Qed.

(** X4. Two updates of the same stored id, one after the other, store what
    a single merge of the second payload into the result of the first
    would; when the second payload sets every field the first one sets,
    nothing of the first update is left, and in particular the same update
    at the same clock reading done twice is the update done once. *)
Theorem later_update_overrides (db : Dict.t) (task_id : string)
    (now1 now2 : datetime) (u1 u2 : TaskUpdate) (old : Task) :
  Dict.get db task_id = Some old ->
  store_after (update_task now2 task_id u2)
              (store_after (update_task now1 task_id u1) db)
    = Dict.set db task_id (model_copy (model_copy old u1 now1) u2 now2) /\
  (sets_at_least u2 u1 ->
     store_after (update_task now2 task_id u2)
                 (store_after (update_task now1 task_id u1) db)
     = store_after (update_task now2 task_id u2) db) /\
  store_after (update_task now1 task_id u1)
              (store_after (update_task now1 task_id u1) db)
    = store_after (update_task now1 task_id u1) db.
Proof.
  intros Hget.
  assert (Hcomp : forall n1 n2 v1 v2,
    store_after (update_task n2 task_id v2)
                (store_after (update_task n1 task_id v1) db)
    = Dict.set db task_id (model_copy (model_copy old v1 n1) v2 n2)).
  { intros. unfold store_after.
    rewrite (update_task_present db n1 task_id v1 old Hget). cbn [snd].
    rewrite (update_task_present _ n2 task_id v2 _
               (DictFacts.get_set_same db task_id _)). cbn [snd].
    apply DictMore.set_set. }
  assert (Hone : forall n v,
    store_after (update_task n task_id v) db
    = Dict.set db task_id (model_copy old v n)).
  { intros. unfold store_after.
    now rewrite (update_task_present db n task_id v old Hget). }
  assert (Hmerge : forall n1 n2 v1 v2, sets_at_least v2 v1 ->
    model_copy (model_copy old v1 n1) v2 n2 = model_copy old v2 n2).
  { intros n1 n2 v1 v2 (Hti & Hde & Hst & Hpr & Hdu).
    unfold model_copy; simpl.
    now rewrite !override_override by assumption. }
  split; [apply Hcomp|]. split.
  - intros Hs. now rewrite Hcomp, Hone, Hmerge.
  - rewrite Hcomp, Hone, Hmerge; [reflexivity|].
    unfold sets_at_least. tauto.
Qed.

Lemma later_update_overrides_witness :
  store_after (update_task 7%Z "task-001"
                 (mkTaskUpdate None None (Some (Some COMPLETED)) None None))
    (store_after (update_task 5%Z "task-001"
                    (mkTaskUpdate None None (Some (Some CANCELLED)) None None))
       tasks_db0)
  = store_after (update_task 7%Z "task-001"
                   (mkTaskUpdate None None (Some (Some COMPLETED)) None None))
      tasks_db0.
Proof.
  edestruct (later_update_overrides tasks_db0 "task-001" 5%Z 7%Z
               (mkTaskUpdate None None (Some (Some CANCELLED)) None None)
               (mkTaskUpdate None None (Some (Some COMPLETED)) None None))
    as (_ & H & _).
  - reflexivity.
  - apply H. unfold sets_at_least; simpl.
    repeat split; intros; congruence.
Defined.

(** The handler keeps the keys of the store. *)
Lemma update_task_keys (db : Dict.t) (now : datetime) (task_id : string)
    (u : TaskUpdate) :
  Dict.keys (store_after (update_task now task_id u) db) = Dict.keys db.
Proof.
  unfold store_after.
  destruct (Dict.get db task_id) as [old|] eqn:G.
  - rewrite (update_task_present db now task_id u old G). cbn [snd].
    apply DictFacts.keys_set_present, DictFacts.contains_get. eauto.
  - apply DictFacts.absent_get in G.
    now rewrite (update_task_absent db now task_id u G).
Qed.

(** X5. An update never adds, removes or moves a record: whatever the
    id and the body, the keys of the store are the same, in the same
    order, after the request as before it. *)
Theorem update_keeps_keys (db : Dict.t) (e : env) (task_id : string)
    (body : TaskUpdateBody) :
  Dict.keys (store_after (update_endpoint e task_id body) db) = Dict.keys db /\
  Dict.keys (store_after (app e (PUT_task task_id body)) db) = Dict.keys db /\
  Dict.len (store_after (app e (PUT_task task_id body)) db) = Dict.len db /\
  forall now u,
    Dict.keys (store_after (update_task now task_id u) db) = Dict.keys db.
Proof.
  assert (He : Dict.keys (store_after (update_endpoint e task_id body) db)
               = Dict.keys db).
  { unfold update_endpoint.
    destruct (Validate.task_update body);
      [apply update_task_keys|reflexivity]. }
  split; [exact He|].
  assert (Ha : Dict.keys (store_after (app e (PUT_task task_id body)) db)
               = Dict.keys db)
    by (simpl; now rewrite as_response_store).
  split; [exact Ha|].
  split; [|intros now u; apply update_task_keys].
  unfold Dict.len.
  rewrite <- (length_map fst), <- (length_map fst db).
  exact (f_equal (@length string) Ha).
Qed.

(* ===================================================================== *)
(** ** Errors *)
(* ===================================================================== *)

Lemma as_response_answer {A : Type} (f : A -> response) (c : handler A)
    (db : Dict.t) :
  answer (as_response f c) db =
  match answer c db with
  | Return a => Return (f a)
  | Raise x => Raise x
  end.
Proof.
  unfold answer, as_response, bind, ret.
  now destruct (c db) as [[a|x] db'].
Qed.

(** A guarded lookup raises only the 404 of an absent id. *)
Lemma get_task_raises (db : Dict.t) (task_id : string) (x : exception) :
  answer (get_task task_id) db = Raise x ->
  x = HTTPException 404 (not_found_detail task_id) /\
  Dict.contains db task_id = false.
Proof.
  unfold answer. destruct (Dict.get db task_id) as [t|] eqn:G.
  - now rewrite (get_task_present db task_id t G).
  - apply DictFacts.absent_get in G.
    rewrite (get_task_absent db task_id G). now intros [= <-].
Qed.

Lemma update_task_raises (db : Dict.t) (now : datetime) (task_id : string)
    (u : TaskUpdate) (x : exception) :
  answer (update_task now task_id u) db = Raise x ->
  x = HTTPException 404 (not_found_detail task_id) /\
  Dict.contains db task_id = false.
Proof.
  unfold answer. destruct (Dict.get db task_id) as [t|] eqn:G.
  - now rewrite (update_task_present db now task_id u t G).
  - apply DictFacts.absent_get in G.
    rewrite (update_task_absent db now task_id u G). now intros [= <-].
Qed.

Lemma delete_task_raises (db : Dict.t) (task_id : string) (x : exception) :
  answer (delete_task task_id) db = Raise x ->
  x = HTTPException 404 (not_found_detail task_id) /\
  Dict.contains db task_id = false.
Proof.
  unfold answer. destruct (Dict.get db task_id) as [t|] eqn:G.
  - now rewrite (delete_task_present db task_id t G).
  - apply DictFacts.absent_get in G.
    rewrite (delete_task_absent db task_id G). now intros [= <-].
Qed.

(** A comprehension over the search condition raises only on a record
    without a title. *)
Lemma comprehension_raises (sl : string) (l : list Task) (x : exception) :
  comprehension (search_cond sl) l = Raise x ->
  x = AttributeError /\ exists t, In t l /\ title t = None.
Proof.
  induction l as [|t r IH]; simpl; [discriminate|].
  destruct (search_cond sl t) as [b|y] eqn:C.
  - destruct (comprehension (search_cond sl) r) as [r'|y]; [discriminate|].
    intros [= <-]. destruct (IH eq_refl) as (-> & t' & Hin & Ht).
    split; [reflexivity|]. exists t'. split; [now right|exact Ht].
  - intros [= <-]. unfold search_cond in C.
    destruct (title t) as [ti|] eqn:Ht.
    + destruct (Py.str_in sl (Py.lower ti)); [discriminate|].
      destruct (description t) as [d|]; [|discriminate].
      destruct (Py.truthy d); discriminate.
    + injection C as <-. split; [reflexivity|].
      exists t. split; [now left|exact Ht].
Qed.

Lemma get_tasks_raises (db : Dict.t) (st : option TaskStatus)
    (pr : option TaskPriority) (se : option string) (l o : Z)
    (x : exception) :
  answer (get_tasks st pr se l o) db = Raise x ->
  x = AttributeError /\
  (exists s, se = Some s /\ Py.truthy s = true) /\
  exists t, In t (Dict.values db) /\ title t = None.
Proof.
  unfold answer, get_tasks, bind, read. cbn [fst snd].
  set (l1 := match st with Some _ => _ | None => _ end).
  set (l2 := match pr with Some _ => _ | None => _ end).
  destruct se as [s|]; [|discriminate].
  destruct (Py.truthy s) eqn:Hs; [|discriminate].
  unfold lift.
  destruct (comprehension _ l2) as [kept|y] eqn:C; [discriminate|].
  cbn [fst]. intros [= <-].
  destruct (comprehension_raises _ _ _ C) as (-> & t & Hin & Ht).
  split; [reflexivity|]. split; [now exists s|].
  exists t. split; [|exact Ht].
  assert (H1 : forall u, In u l1 -> In u (Dict.values db)).
  { subst l1. destruct st; [|tauto]. intros u Hu.
    now apply filter_In in Hu. }
  apply H1. subst l2. destruct pr; [|exact Hin].
  now apply filter_In in Hin.
Qed.

Lemma list_endpoint_raises (db : Dict.t) (q : TaskQuery) (x : exception) :
  answer (list_endpoint q) db = Raise x ->
  x = RequestValidationError \/
  (x = AttributeError /\ exists t, In t (Dict.values db) /\ title t = None).
Proof.
  unfold list_endpoint.
  destruct (Validate.enum_param _ (q_status q));
    [|intros [= <-]; now left].
  destruct (Validate.enum_param _ (q_priority q));
    [|intros [= <-]; now left].
  destruct (Validate.limit_param _); [|intros [= <-]; now left].
  destruct (Validate.offset_param _); [|intros [= <-]; now left].
  intros H. right.
  destruct (get_tasks_raises _ _ _ _ _ _ _ H) as (-> & _ & Ht).
  now split.
Qed.

(** X7. The exceptions a request can end with.  Whatever the store and
    the request, an exception that leaves the application is the
    validation error, or the 404 naming an id that is not in the store,
    or the attribute error of a list query with a search text on a store
    that holds a record without a title.  The lookups [tasks_db[task_id]]
    are guarded: no request ends with a key error. *)
Theorem exceptions_of_a_request (db : Dict.t) (e : env) (r : request)
    (x : exception) :
  answer (app e r) db = Raise x ->
  x = RequestValidationError \/
  (exists task_id,
     x = HTTPException 404 ("Task with ID '" ++ task_id ++ "' not found") /\
     Dict.contains db task_id = false) \/
  (x = AttributeError /\
   (exists q s, r = GET_tasks q /\ q_search q = Some s /\ s <> "") /\
   ~ titled db).
Proof.
  destruct r as [| |q|task_id|body|task_id body|task_id|]; simpl;
    rewrite as_response_answer.
  - discriminate.
  - discriminate.
  - destruct (answer (list_endpoint q) db) as [a|y] eqn:H; [discriminate|].
    intros [= <-].
    destruct (list_endpoint_raises db q y H) as [->|(-> & t & Hin & Ht)];
      [now left|].
    right; right. split; [reflexivity|]. split.
    + unfold list_endpoint in H.
      destruct (Validate.enum_param _ (q_status q)); [|discriminate].
      destruct (Validate.enum_param _ (q_priority q)); [|discriminate].
      destruct (Validate.limit_param _); [|discriminate].
      destruct (Validate.offset_param _); [|discriminate].
      destruct (get_tasks_raises _ _ _ _ _ _ _ H) as (_ & (s & Hs & Hts) & _).
      exists q, s. repeat split; [exact Hs|].
      intros ->. discriminate.
    + intros Htitled.
      exact (proj1 (Forall_forall _ _) Htitled t Hin Ht).
  - destruct (answer (get_task task_id) db) as [a|y] eqn:H; [discriminate|].
    intros [= <-]. destruct (get_task_raises db task_id y H) as [-> Hc].
    right; left. now exists task_id.
  - unfold create_endpoint.
    destruct (Validate.task_create body); [discriminate|].
    intros [= <-]. now left.
  - unfold update_endpoint.
    destruct (Validate.task_update body) as [u|];
      [|intros [= <-]; now left].
    destruct (answer (update_task (now e) task_id u) db) as [a|y] eqn:H;
      [discriminate|].
    intros [= <-].
    destruct (update_task_raises db (now e) task_id u y H) as [-> Hc].
    right; left. now exists task_id.
  - destruct (answer (delete_task task_id) db) as [a|y] eqn:H;
      [discriminate|].
    intros [= <-]. destruct (delete_task_raises db task_id y H) as [-> Hc].
    right; left. now exists task_id.
  - discriminate.
Qed.

Lemma exceptions_of_a_request_witness :
  exists task_id,
    HTTPException 404 "Task with ID 'fake-id' not found" =
    HTTPException 404 ("Task with ID '" ++ task_id ++ "' not found") /\
    Dict.contains tasks_db0 task_id = false.
Proof.
  destruct (exceptions_of_a_request tasks_db0 (mkEnv 0%Z "0000abcd")
              (DELETE_task "fake-id")
              (HTTPException 404 "Task with ID 'fake-id' not found") eq_refl)
    as [H|[H|(H & _)]]; [discriminate H|exact H|discriminate H].
Defined.

(** X6. A request that ends with an exception leaves the store exactly as
    it was: every handler raises before it writes. *)
Theorem failed_request_leaves_store (db : Dict.t) (e : env) (r : request)
    (x : exception) :
  answer (app e r) db = Raise x -> store_after (app e r) db = db.
Proof.
  intros H.
  destruct (app_store e r db)
    as [Hs|[(body & task & -> & V & _)|[(k & body & u & old & -> & V & G & _)
       |(k & old & -> & G & _)]]]; [exact Hs| | |]; exfalso;
    simpl in H; rewrite as_response_answer in H.
  - unfold create_endpoint in H. rewrite V in H. discriminate.
  - unfold update_endpoint in H. rewrite V in H.
    unfold answer in H.
    now rewrite (update_task_present db (now e) k u old G) in H.
  - unfold answer in H.
    now rewrite (delete_task_present db k old G) in H.
Qed.

Lemma failed_request_leaves_store_witness :
  store_after
    (app (mkEnv 0%Z "0000abcd")
       (POST_tasks (mkTaskCreateBody (Valid "") Omitted Omitted Omitted Omitted)))
    tasks_db0 = tasks_db0.
Proof.
  apply (failed_request_leaves_store tasks_db0 (mkEnv 0%Z "0000abcd")
           (POST_tasks (mkTaskCreateBody (Valid "") Omitted Omitted Omitted
                          Omitted))
           RequestValidationError).
  reflexivity.
Defined.

(* ===================================================================== *)
(** ** What no request changes *)
(* ===================================================================== *)

Lemma reachable_after (e : env) (r : request) (db : Dict.t) :
  reachable db -> reachable (store_after (app e r) db).
Proof.
  intros [reqs <-]. exists (reqs ++ [(e, r)]).
  generalize tasks_db0.
  induction reqs as [|[e' r'] rest IH]; intros d; simpl; [reflexivity|].
  apply IH.
Qed.

(** X16. In a reachable store a record is filed under its own id, and no
    request changes that: a record found under a key after a request has
    that key as its id, as the record found there before.  Its
    [created_at] is the one it had before as well, unless the request is a
    create whose generated id is that key. *)
Theorem id_and_created_at_are_kept (db : Dict.t) (e : env) (r : request)
    (k : string) (t t' : Task) :
  reachable db ->
  Dict.get db k = Some t ->
  Dict.get (store_after (app e r) db) k = Some t' ->
  id t = k /\ id t' = k /\
  ((forall body, r <> POST_tasks body) \/ k <> ("task-" ++ hex8 e)%string ->
   created_at t' = created_at t).
Proof.
  intros Hr Hget Hget'.
  pose proof (keyed_reachable db Hr) as Hk.
  pose proof (keyed_reachable _ (reachable_after e r db Hr)) as Hk'.
  split; [exact (keyed_get db k t Hk Hget)|].
  split; [exact (keyed_get _ k t' Hk' Hget')|].
  intros Hcase.
  destruct (app_store e r db)
    as [Hs|[(body & task & -> & V & Hs)|[(k0 & body & u & old & -> & V & G & Hs)
       |(k0 & old & -> & G & Hs)]]]; rewrite Hs in Hget'.
  - congruence.
  - destruct Hcase as [Hnp|Hne]; [now destruct (Hnp body)|].
    rewrite DictFacts.get_set_other in Hget' by exact Hne. congruence.
  - destruct (String.eqb_spec k k0) as [->|Hne].
    + rewrite DictFacts.get_set_same in Hget'.
      injection Hget' as <-. simpl. congruence.
    + rewrite DictFacts.get_set_other in Hget' by exact Hne. congruence.
  - destruct (String.eqb_spec k k0) as [->|Hne].
    + rewrite DictFacts.get_remove_same in Hget' by exact (proj1 Hk).
      discriminate.
    + rewrite DictMore.get_remove_other in Hget' by exact Hne. congruence.
Qed.

Lemma id_and_created_at_are_kept_witness :
  exists t' : Task,
    Dict.get (store_after
                (app (mkEnv (mk_datetime 2025 2 1 0 0 0) "0000abcd")
                   (PUT_task "task-001"
                      (mkTaskUpdateBody (Valid "Renamed") Omitted Omitted
                         Omitted Omitted)))
                tasks_db0) "task-001" = Some t' /\
    title t' = Some "Renamed" /\
    id t' = "task-001" /\ created_at t' = mk_datetime 2025 1 10 9 0 0.
Proof.
  eexists. split; [reflexivity|]. split; [reflexivity|].
  edestruct (id_and_created_at_are_kept tasks_db0
               (mkEnv (mk_datetime 2025 2 1 0 0 0) "0000abcd")
               (PUT_task "task-001"
                  (mkTaskUpdateBody (Valid "Renamed") Omitted Omitted Omitted
                     Omitted)) "task-001") as (_ & Hid & Hc).
  - exists []. reflexivity.
  - reflexivity.
  - reflexivity.
  - split; [exact Hid|]. rewrite Hc; [reflexivity|]. left. discriminate.
Defined.

(** X17. The generated part of a new id is 8 characters long, so a new id
    is 13 characters long: a create never replaces, and never otherwise
    touches, a record whose id has another length, the three seeded ids
    among them. *)
Theorem create_spares_other_ids (db : Dict.t) (now : datetime)
    (hex8 : string) (task : TaskCreate) (k : string) :
  String.length hex8 = 8 ->
  String.length k <> 13 ->
  Dict.get (store_after (create_task now hex8 task) db) k = Dict.get db k.
Proof.
  intros Hh Hk. rewrite create_task_run.
  apply DictFacts.get_set_other. intros ->.
  apply Hk. simpl. now rewrite Hh.
Qed.

Lemma create_spares_other_ids_witness :
  Dict.get (store_after
              (create_task 0%Z "0000abcd"
                 (mkTaskCreate "New" None PENDING MEDIUM None)) tasks_db0)
           "task-001"
  = Dict.get tasks_db0 "task-001".
Proof.
  apply (create_spares_other_ids tasks_db0 0%Z "0000abcd"
           (mkTaskCreate "New" None PENDING MEDIUM None) "task-001").
  - reflexivity.
  - simpl. discriminate.
Defined.

(* ===================================================================== *)
(** ** Filters and pages of the list handler *)
(* ===================================================================== *)

Lemma status_is_true (s : TaskStatus) (t : Task) :
  status_is s t = true <-> status t = Some s.
Proof.
  unfold status_is. destruct (status t) as [s'|]; [|split; discriminate].
  destruct s', s; simpl; split; congruence.
Qed.

Lemma priority_is_true (p : TaskPriority) (t : Task) :
  priority_is p t = true <-> priority t = Some p.
Proof.
  unfold priority_is. destruct (priority t) as [p'|]; [|split; discriminate].
  destruct p', p; simpl; split; congruence.
Qed.

Lemma in_firstn {A : Type} (n : nat) (l : list A) (x : A) :
  In x (firstn n l) -> In x l.
Proof.
  intros H. rewrite <- (firstn_skipn n l). apply in_or_app. now left.
Qed.

Lemma in_skipn {A : Type} (n : nat) (l : list A) (x : A) :
  In x (skipn n l) -> In x l.
Proof.
  intros H. rewrite <- (firstn_skipn n l). apply in_or_app. now right.
Qed.

Lemma firstn_plus {A : Type} (a b : nat) (l : list A) :
  firstn (a + b) l = firstn a l ++ firstn b (skipn a l).
Proof.
  revert l. induction a as [|a IH]; intros l; [reflexivity|].
  destruct l as [|x l]; simpl; [now rewrite firstn_nil|].
  now rewrite IH.
Qed.

(** X8. With no search text the list handler always returns, and what it
    returns is exact: every record of the page is a stored record with the
    requested status and the requested priority, the count is the length
    of the page and is at most the limit; and when the page starts at 0
    and the limit covers the store, every stored record with the requested
    status and priority is in the page. *)
Theorem filters_select_exactly (db : Dict.t) (st : option TaskStatus)
    (pr : option TaskPriority) (limit offset : Z) :
  (1 <= limit <= 100)%Z -> (0 <= offset)%Z ->
  exists r : TaskListResponse,
    get_tasks st pr None limit offset db = (Return r, db) /\
    tl_count r = length (tl_data r) /\
    (Z.of_nat (tl_count r) <= limit)%Z /\
    (forall t, In t (tl_data r) ->
       In t (Dict.values db) /\
       (forall s, st = Some s -> status t = Some s) /\
       (forall p, pr = Some p -> priority t = Some p)) /\
    (offset = 0%Z -> (Z.of_nat (Dict.len db) <= limit)%Z ->
     forall t, In t (Dict.values db) ->
       (forall s, st = Some s -> status t = Some s) ->
       (forall p, pr = Some p -> priority t = Some p) ->
       In t (tl_data r)).
Proof.
  intros Hl Ho. eexists.
  split; [apply get_tasks_page; [now left|exact Hl|exact Ho]|].
  cbn [tl_count tl_data]. unfold Spec.page. cbn [Spec.filter_if].
  set (f := Spec.filter_if pr priority_is
              (Spec.filter_if st status_is (Dict.values db))).
  assert (Hf : forall t, In t f <->
            In t (Dict.values db) /\
            (forall s, st = Some s -> status t = Some s) /\
            (forall p, pr = Some p -> priority t = Some p)).
  { intros t. subst f. destruct pr as [p|], st as [s|]; simpl;
      rewrite ?filter_In, ?priority_is_true, ?status_is_true.
    - split.
      + intros [[Hin Hs] Hp]. repeat split; [exact Hin| |]; congruence.
      + intros (Hin & Hs & Hp). now rewrite (Hs s eq_refl), (Hp p eq_refl).
    - split.
      + intros [Hin Hp]. repeat split; [exact Hin| |]; congruence.
      + intros (Hin & _ & Hp). now rewrite (Hp p eq_refl).
    - split.
      + intros [Hin Hs]. repeat split; [exact Hin| |]; congruence.
      + intros (Hin & Hs & _). now rewrite (Hs s eq_refl).
    - split; [intros Hin; repeat split; [exact Hin| |]; discriminate|tauto]. }
  split; [reflexivity|].
  split; [rewrite length_firstn; lia|].
  split.
  - intros t Hin. apply Hf. eapply in_skipn, in_firstn. exact Hin.
  - intros -> Hcover t Hin Hs Hp. simpl.
    rewrite firstn_all2; [apply Hf; now repeat split|].
    assert (Hlen : length f <= length (Dict.values db)).
    { subst f. destruct pr, st; simpl;
        repeat (etransitivity; [apply filter_length_le|]); reflexivity. }
    unfold Dict.len, Dict.values in *. rewrite length_map in Hlen. lia.
Qed.

Lemma filters_select_exactly_witness :
  exists r : TaskListResponse,
    get_tasks (Some PENDING) None None 100 0 tasks_db0 = (Return r, tasks_db0) /\
    forall t, In t (tl_data r) -> status t = Some PENDING.
Proof.
  destruct (filters_select_exactly tasks_db0 (Some PENDING) None 100 0)
    as (r & Hrun & _ & _ & Hsound & _); [lia|lia|].
  exists r. split; [exact Hrun|].
  intros t Hin. now apply (Hsound t Hin).
Defined.

(** Whether a list query returns does not depend on the page asked for;
    when it does, every page is a slice of one list of stored records. *)
Lemma get_tasks_shape (db : Dict.t) (st : option TaskStatus)
    (pr : option TaskPriority) (se : option string) :
  (exists x, forall l o, answer (get_tasks st pr se l o) db = Raise x) \/
  (exists f : list Task,
     forall l o,
       answer (get_tasks st pr se l o) db =
       Return (mkTaskListResponse true
                 (length (Py.slice f o (o + l))) (Py.slice f o (o + l)))).
Proof.
  unfold answer, get_tasks, bind, read. cbn [fst snd].
  set (l2 := match pr with Some _ => _ | None => _ end).
  destruct se as [s|]; [destruct (Py.truthy s)|].
  - unfold lift. destruct (comprehension _ l2) as [kept|x].
    + right. exists kept. reflexivity.
    + left. exists x. reflexivity.
  - right. exists l2. reflexivity.
  - right. exists l2. reflexivity.
Qed.

(** X9. Pages tile the result.  When a list query returns for one page,
    it returns for every page; the page of [l1] records at offset [o]
    followed by the page of [l2] records at offset [o + l1] is the page of
    [l1 + l2] records at offset [o], and the counts add up; a page never
    holds more records than its limit. *)
Theorem pages_concatenate (db : Dict.t) (st : option TaskStatus)
    (pr : option TaskPriority) (se : option string) (o l1 l2 : Z)
    (r1 : TaskListResponse) :
  (0 <= o)%Z -> (0 <= l1)%Z -> (0 <= l2)%Z ->
  answer (get_tasks st pr se l1 o) db = Return r1 ->
  exists r2 r12 : TaskListResponse,
    answer (get_tasks st pr se l2 (o + l1)) db = Return r2 /\
    answer (get_tasks st pr se (l1 + l2) o) db = Return r12 /\
    tl_data r1 ++ tl_data r2 = tl_data r12 /\
    tl_count r1 + tl_count r2 = tl_count r12 /\
    (Z.of_nat (tl_count r1) <= l1)%Z.
Proof.
  intros Ho H1 H2 Hr1.
  destruct (get_tasks_shape db st pr se) as [[x Hx]|[f Hf]];
    [rewrite Hx in Hr1; discriminate|].
  rewrite Hf in Hr1. injection Hr1 as <-.
  do 2 eexists. split; [apply Hf|]. split; [apply Hf|].
  cbn [tl_data tl_count].
  rewrite !PyFacts.slice_page by lia.
  assert (Hcat :
    firstn (Z.to_nat l1) (skipn (Z.to_nat o) f)
    ++ firstn (Z.to_nat l2) (skipn (Z.to_nat (o + l1)) f)
    = firstn (Z.to_nat (l1 + l2)) (skipn (Z.to_nat o) f)).
  { rewrite (Z2Nat.inj_add l1 l2) by lia. rewrite firstn_plus.
    rewrite skipn_skipn. do 3 f_equal. lia. }
  split; [exact Hcat|].
  split; [now rewrite <- Hcat, length_app|].
  rewrite length_firstn. lia.
Qed.

Lemma pages_concatenate_witness :
  exists r2 r12 : TaskListResponse,
    answer (get_tasks None None None 1 1) tasks_db0 = Return r2 /\
    answer (get_tasks None None None 2 0) tasks_db0 = Return r12 /\
    map id (tl_data r2) = ["task-002"] /\
    map id (tl_data r12) = ["task-001"; "task-002"].
Proof.
  edestruct (pages_concatenate tasks_db0 None None None 0 1 1)
    as (r2 & r12 & Hr2 & Hr12 & Hcat & _);
    [lia|lia|lia|reflexivity|].
  exists r2, r12. split; [exact Hr2|]. split; [exact Hr12|].
  simpl in Hr2, Hr12. injection Hr2 as <-. injection Hr12 as <-.
  split; reflexivity.
Defined.

(* ===================================================================== *)
(** ** The query string of the list endpoint *)
(* ===================================================================== *)

Lemma enum_param_cases {E : Type} (of_value : string -> option E)
    (values : list string) (p : option string) :
  (forall v, of_value v = None <-> existsb (String.eqb v) values = false) ->
  match Validate.enum_param of_value p with
  | None => exists v, p = Some v /\ existsb (String.eqb v) values = false
  | Some None => p = None
  | Some (Some e) => exists v, p = Some v /\ of_value v = Some e /\
                               existsb (String.eqb v) values = true
  end.
Proof.
  intros H. destruct p as [v|]; simpl; [|reflexivity].
  destruct (of_value v) as [e|] eqn:Hv.
  - exists v. repeat split; [exact Hv|].
    destruct (existsb _ _) eqn:X; [reflexivity|].
    apply H in X. congruence.
  - exists v. split; [reflexivity|]. now apply H.
Qed.

(** X10. The list endpoint refuses a query string exactly when its status
    or priority is not a value of the enum, its limit is a text that is
    not an integer or an integer outside 1..100, or its offset is a text
    that is not an integer or a negative integer, and then the handler
    does not run.  Otherwise it runs the handler with the search text as
    given, the named members of the enums, the integers the limit and the
    offset read as, and 100 and 0 where they are omitted. *)
Theorem list_query_validation (db : Dict.t) (q : TaskQuery) :
  if bad_query q
  then list_endpoint q db = (Raise RequestValidationError, db)
  else exists (st : option TaskStatus) (pr : option TaskPriority),
         list_endpoint q db =
           get_tasks st pr (q_search q)
             (match q_limit q with Some (Reads l) => l | _ => 100%Z end)
             (match q_offset q with Some (Reads o) => o | _ => 0%Z end) db /\
         (q_status q = None -> st = None) /\
         (forall v, q_status q = Some v ->
            exists s, st = Some s /\ TaskStatus_.value s = v) /\
         (q_priority q = None -> pr = None) /\
         (forall v, q_priority q = Some v ->
            exists p, pr = Some p /\ TaskPriority_.value p = v).
Proof.
  unfold bad_query, list_endpoint.
  pose proof (enum_param_cases TaskStatus_.of_value Spec.status_values
                (q_status q) status_of_value_none) as Hs.
  pose proof (enum_param_cases TaskPriority_.of_value Spec.priority_values
                (q_priority q) priority_of_value_none) as Hp.
  destruct (Validate.enum_param TaskStatus_.of_value (q_status q))
    as [st|].
  2:{ destruct Hs as (v & -> & ->). reflexivity. }
  assert (Es : match q_status q with
               | Some v => negb (existsb (String.eqb v) Spec.status_values)
               | None => false
               end = false).
  { destruct st as [s|]; [destruct Hs as (v & -> & _ & ->)|rewrite Hs];
      reflexivity. }
  rewrite Es. cbn [orb].
  destruct (Validate.enum_param TaskPriority_.of_value (q_priority q))
    as [pr|].
  2:{ destruct Hp as (v & -> & ->). reflexivity. }
  assert (Ep : match q_priority q with
               | Some v => negb (existsb (String.eqb v) Spec.priority_values)
               | None => false
               end = false).
  { destruct pr as [p|]; [destruct Hp as (v & -> & _ & ->)|rewrite Hp];
      reflexivity. }
  rewrite Ep. cbn [orb].
  assert (Hst : (q_status q = None -> st = None) /\
                (forall v, q_status q = Some v ->
                   exists s, st = Some s /\ TaskStatus_.value s = v)).
  { destruct st as [s|].
    - destruct Hs as (v & Hq & Hv & _). split; [congruence|].
      intros v' Hq'. exists s. split; [reflexivity|].
      apply status_value_of. congruence.
    - split; [reflexivity|]. congruence. }
  assert (Hpr : (q_priority q = None -> pr = None) /\
                (forall v, q_priority q = Some v ->
                   exists p, pr = Some p /\ TaskPriority_.value p = v)).
  { destruct pr as [p|].
    - destruct Hp as (v & Hq & Hv & _). split; [congruence|].
      intros v' Hq'. exists p. split; [reflexivity|].
      apply priority_value_of. congruence.
    - split; [reflexivity|]. congruence. }
  unfold Validate.limit_param, Validate.offset_param.
  destruct (q_limit q) as [[l|]|]; destruct (q_offset q) as [[o|]|];
    cbn [orb]; rewrite ?orb_true_r;
    repeat match goal with
           | |- context [(?a <=? ?b)%Z] => destruct (Z.leb_spec a b)
           | |- context [(?a <? ?b)%Z] => destruct (Z.ltb_spec a b)
           end;
    try lia; cbn [andb orb]; try reflexivity;
    exists st, pr; (split; [reflexivity|tauto]).
Qed.

(** X15. The list endpoint with no parameter returns the first 100
    records of the store in insertion order, and their number as count.
    A create with a fresh id puts its record last in that order: it shows
    at the end of this page when the store held fewer than 100 records,
    and not on this page when it held 100 or more. *)
Theorem default_listing (db : Dict.t) (now : datetime) (hex8 : string)
    (task : TaskCreate) :
  list_endpoint no_params db =
    (Return (mkTaskListResponse true (Nat.min 100 (Dict.len db))
               (firstn 100 (Dict.values db))), db) /\
  (Dict.contains db ("task-" ++ hex8) = false ->
   (Dict.len db < 100 ->
    answer (list_endpoint no_params) (store_after (create_task now hex8 task) db)
    = Return (mkTaskListResponse true (S (Dict.len db))
                (Dict.values db ++ [new_task now hex8 task]))) /\
   (100 <= Dict.len db ->
    answer (list_endpoint no_params) (store_after (create_task now hex8 task) db)
    = answer (list_endpoint no_params) db)).
Proof.
  assert (Hlist : forall d,
    list_endpoint no_params d =
    (Return (mkTaskListResponse true (Nat.min 100 (Dict.len d))
               (firstn 100 (Dict.values d))), d)).
  { intros d. unfold list_endpoint, no_params.
    cbn [q_status q_priority q_limit q_offset q_search
         Validate.enum_param Validate.limit_param Validate.offset_param].
    rewrite get_tasks_page; [|now left|lia|lia].
    unfold Spec.page. cbn [Spec.filter_if].
    change (Z.to_nat 100) with 100. change (Z.to_nat 0) with 0.
    cbn [skipn].
    rewrite length_firstn. unfold Dict.len, Dict.values.
    now rewrite length_map. }
  split; [apply Hlist|].
  intros Hfresh. rewrite create_task_run. fold (new_task now hex8 task).
  unfold answer. rewrite !Hlist. cbn [fst].
  rewrite (DictMore.values_set_absent db _ _ Hfresh).
  rewrite (DictFacts.len_set_absent db _ _ Hfresh).
  assert (Hlen : length (Dict.values db) = Dict.len db)
    by (unfold Dict.values, Dict.len; apply length_map).
  split; intros H.
  - rewrite Nat.min_r by lia.
    rewrite firstn_all2; [reflexivity|].
    rewrite length_app, Hlen. simpl. lia.
  - rewrite !Nat.min_l by lia.
    rewrite firstn_app.
    replace (100 - length (Dict.values db)) with 0 by lia.
    simpl. now rewrite app_nil_r.
Qed.

(* ===================================================================== *)
(** ** The case of a search text *)
(* ===================================================================== *)

Lemma lower_char_idempotent (c : ascii) :
  Py.lower_char (Py.lower_char c) = Py.lower_char c.
Proof. destruct c as [[] [] [] [] [] [] [] []]; reflexivity. Qed.

Lemma lower_idempotent (s : string) : Py.lower (Py.lower s) = Py.lower s.
Proof.
  induction s as [|c s IH]; simpl; [reflexivity|].
  now rewrite lower_char_idempotent, IH.
Qed.

Lemma lower_length (s : string) :
  String.length (Py.lower s) = String.length s.
Proof. induction s as [|c s IH]; simpl; congruence. Qed.

(** X14. The list handler does not see the case of the search text: two
    texts with the same lower-case form get the same answer, page and
    exception alike, and so a text and its lower-case form do. *)
Theorem search_ignores_case (db : Dict.t) (st : option TaskStatus)
    (pr : option TaskPriority) (x y : string) (limit offset : Z) :
  Py.lower x = Py.lower y ->
  get_tasks st pr (Some x) limit offset db
    = get_tasks st pr (Some y) limit offset db /\
  get_tasks st pr (Some (Py.lower x)) limit offset db
    = get_tasks st pr (Some x) limit offset db.
Proof.
  assert (H : forall a b, Py.lower a = Py.lower b ->
            get_tasks st pr (Some a) limit offset db
            = get_tasks st pr (Some b) limit offset db).
  { intros a b Hab. unfold get_tasks, bind, read.
    assert (Ht : Py.truthy a = Py.truthy b).
    { rewrite <- (PyFacts.lower_truthy a), <- (PyFacts.lower_truthy b).
      now rewrite Hab. }
    now rewrite Ht, Hab. }
  intros Hxy. split; [now apply H|].
  apply H, lower_idempotent.
Qed.

Lemma search_ignores_case_witness :
  get_tasks None None (Some "API") 100 0 tasks_db0
  = get_tasks None None (Some "api") 100 0 tasks_db0.
Proof.
  apply (search_ignores_case tasks_db0 None None "API" "api" 100 0).
  reflexivity.
Defined.

(* ===================================================================== *)
(** ** Statistics on any store *)
(* ===================================================================== *)

Lemma status_counts_account (tasks : list Task) :
  length (filter (status_is PENDING) tasks)
  + (length (filter (status_is IN_PROGRESS) tasks)
     + (length (filter (status_is COMPLETED) tasks)
        + (length (filter (status_is CANCELLED) tasks) + 0)))
  + length (filter no_status tasks)
  = length tasks.
Proof.
  induction tasks as [|t r IH]; [reflexivity|].
  unfold status_is, no_status in *. simpl.
  destruct (status t) as [[]|]; simpl; lia.
Qed.

Lemma priority_counts_account (tasks : list Task) :
  length (filter (priority_is LOW) tasks)
  + (length (filter (priority_is MEDIUM) tasks)
     + (length (filter (priority_is HIGH) tasks)
        + (length (filter (priority_is URGENT) tasks) + 0)))
  + length (filter no_priority tasks)
  = length tasks.
Proof.
  induction tasks as [|t r IH]; [reflexivity|].
  unfold priority_is, no_priority in *. simpl.
  destruct (priority t) as [[]|]; simpl; lia.
Qed.

Lemma filter_none_length {A : Type} (f : A -> bool) (l : list A) :
  length (filter f l) = 0 <-> Forall (fun x => f x = false) l.
Proof.
  induction l as [|a r IH]; simpl; [split; [constructor|reflexivity]|].
  destruct (f a) eqn:E; simpl.
  - split; [discriminate|]. intros H. inversion H; congruence.
  - rewrite IH. split; [now constructor|]. intros H. now inversion H.
Qed.

(** X13. On every store the statistics request returns, its total is the
    size of the store, and each grouping has the four wire values of its
    enum as keys, in the order of the enum.  The counts of a grouping and
    the number of records that have no value for it add up to the total:
    the counts add up to the total exactly when every record has a
    status, respectively a priority. *)
Theorem statistics_account_for_records (db : Dict.t) :
  exists r : Statistics,
    get_statistics db = (Return r, db) /\
    total_tasks r = Dict.len db /\
    map fst (by_status r) = Spec.status_values /\
    map fst (by_priority r) = Spec.priority_values /\
    counts_sum (by_status r) + length (filter no_status (Dict.values db))
      = total_tasks r /\
    counts_sum (by_priority r) + length (filter no_priority (Dict.values db))
      = total_tasks r /\
    (counts_sum (by_status r) = total_tasks r <->
     Forall (fun t => status t <> None) (Dict.values db)) /\
    (counts_sum (by_priority r) = total_tasks r <->
     Forall (fun t => priority t <> None) (Dict.values db)).
Proof.
  eexists. split; [apply get_statistics_run|].
  cbn [total_tasks by_status by_priority]. unfold counts_sum.
  cbn [map snd fst list_sum fold_right].
  pose proof (status_counts_account (Dict.values db)) as Hs.
  pose proof (priority_counts_account (Dict.values db)) as Hp.
  split; [unfold Dict.len, Dict.values; apply length_map|].
  split; [reflexivity|]. split; [reflexivity|].
  split; [exact Hs|]. split; [exact Hp|].
  split.
  - transitivity (length (filter no_status (Dict.values db)) = 0); [lia|].
    rewrite filter_none_length. split; apply Forall_impl; intros t;
      unfold no_status; destruct (status t); congruence.
  - transitivity (length (filter no_priority (Dict.values db)) = 0); [lia|].
    rewrite filter_none_length. split; apply Forall_impl; intros t;
      unfold no_priority; destruct (priority t); congruence.
Qed.

(* ===================================================================== *)
(** ** Validation of the update body *)
(* ===================================================================== *)







(* ===================================================================== *)
(** ** Histories that keep to the model *)
(* ===================================================================== *)

Lemma titled_typed_start : titled tasks_db0 /\ typed tasks_db0.
Proof.
  split; repeat constructor; simpl; discriminate.
Qed.

Lemma model_copy_keeps_required (old : Task) (b : TaskUpdateBody)
    (u : TaskUpdate) (now : datetime) :
  Validate.task_update b = Some u ->
  nulls_required b = false ->
  title old <> None /\ status old <> None /\ priority old <> None ->
  title (model_copy old u now) <> None /\
  status (model_copy old u now) <> None /\
  priority (model_copy old u now) <> None.
Proof.
  intros Hval Hnull (Hti & Hst & Hpr).
  destruct (validated_update b u Hval) as (Vti & _ & Vst & Vpr & _).
  apply settable_cases in Vti, Vst, Vpr.
  unfold nulls_required in Hnull.
  apply orb_false_iff in Hnull as [Hnull Npr].
  apply orb_false_iff in Hnull as [Nti Nst].
  simpl. repeat split.
  - destruct (tu_title u) as [[s|]|]; simpl;
      [discriminate|rewrite Vti in Nti; discriminate|exact Hti].
  - destruct (tu_status u) as [[s|]|]; simpl;
      [discriminate|rewrite Vst in Nst; discriminate|exact Hst].
  - destruct (tu_priority u) as [[p|]|]; simpl;
      [discriminate|rewrite Vpr in Npr; discriminate|exact Hpr].
Qed.

Lemma required_fields_step (db : Dict.t) (e : env) (r : request) :
  sends_required_null r = false ->
  titled db /\ typed db ->
  titled (store_after (app e r) db) /\ typed (store_after (app e r) db).
Proof.
  intros Hr [Hti Hty].
  assert (Hall : Forall (fun t => title t <> None /\ status t <> None /\
                                  priority t <> None) (Dict.values db)).
  { apply Forall_forall. intros t Hin.
    pose proof (proj1 (Forall_forall _ _) Hti t Hin) as H1.
    pose proof (proj1 (Forall_forall _ _) Hty t Hin) as H2.
    cbv beta in H1, H2. tauto. }
  assert (Hall' : Forall (fun t => title t <> None /\ status t <> None /\
                                   priority t <> None)
                    (Dict.values (store_after (app e r) db))).
  { destruct (app_store e r db)
      as [->|[(body & task & _ & V & ->)
         |[(k & body & u & old & -> & V & G & ->)|(k & old & _ & _ & ->)]]];
      [exact Hall| | |]; apply Forall_forall; intros t Hin.
    - apply values_set in Hin as [->|Hin].
      + simpl. repeat split; discriminate.
      + exact (proj1 (Forall_forall _ _) Hall _ Hin).
    - apply values_set in Hin as [->|Hin].
      + apply (model_copy_keeps_required old body u (now e) V Hr).
        exact (proj1 (Forall_forall _ _) Hall _ (values_get _ _ _ G)).
      + exact (proj1 (Forall_forall _ _) Hall _ Hin).
    - apply values_remove in Hin.
      exact (proj1 (Forall_forall _ _) Hall _ Hin). }
  split; (eapply Forall_impl; [|exact Hall']); intros t; cbv beta; tauto.
Qed.

(** An attribute error needs a record without a title. *)
Lemma attribute_error_needs_untitled (db : Dict.t) (e : env) (r : request) :
  answer (app e r) db = Raise AttributeError -> ~ titled db.
Proof.
  intros H Ht.
  destruct r as [| |q|task_id|body|task_id body|task_id|]; simpl in H;
    rewrite as_response_answer in H; try discriminate H.
  - destruct (answer (list_endpoint q) db) as [a|y] eqn:L; [discriminate|].
    injection H as ->.
    destruct (list_endpoint_raises db q _ L) as [E|(_ & t & Hin & Hn)];
      [discriminate E|].
    exact (proj1 (Forall_forall _ _) Ht t Hin Hn).
  - destruct (answer (get_task task_id) db) as [a|y] eqn:L; [discriminate|].
    injection H as ->. now destruct (get_task_raises db task_id _ L).
  - unfold create_endpoint in H.
    destruct (Validate.task_create body); discriminate.
  - unfold update_endpoint in H.
    destruct (Validate.task_update body) as [u|]; [|discriminate].
    destruct (answer (update_task (now e) task_id u) db) as [a|y] eqn:L;
      [discriminate|].
    injection H as ->.
    now destruct (update_task_raises db (now e) task_id u _ L).
  - destruct (answer (delete_task task_id) db) as [a|y] eqn:L;
      [discriminate|].
    injection H as ->. now destruct (delete_task_raises db task_id _ L).
Qed.

(** X18. After any sequence of requests none of which sends [null] for
    the title, status or priority of an update, every stored record has a
    title, a status and a priority; then no request ends with an
    attribute error, and the counts of each grouping of the statistics
    add up to the total. *)
Theorem history_without_required_nulls (reqs : list (env * request)) :
  Forall (fun er => sends_required_null (snd er) = false) reqs ->
  titled (serve reqs tasks_db0) /\
  typed (serve reqs tasks_db0) /\
  (forall e r, answer (app e r) (serve reqs tasks_db0) <> Raise AttributeError) /\
  exists s : Statistics,
    answer get_statistics (serve reqs tasks_db0) = Return s /\
    counts_sum (by_status s) = total_tasks s /\
    counts_sum (by_priority s) = total_tasks s.
Proof.
  intros Hreqs.
  assert (H : titled (serve reqs tasks_db0) /\ typed (serve reqs tasks_db0)).
  { pose proof titled_typed_start as H0. revert H0. generalize tasks_db0.
    induction Hreqs as [|[e r] rest Hr _ IH]; intros d Hd; simpl; [exact Hd|].
    apply IH. now apply required_fields_step. }
  destruct H as [Hti Hty]. split; [exact Hti|]. split; [exact Hty|]. split.
  - intros e r Hx.
    now apply (attribute_error_needs_untitled _ e r Hx).
  - destruct (statistics_of_typed_store _ Hty) as (s & Hrun & _ & _ & _ & Hs & Hp).
    exists s. unfold answer. rewrite Hrun. now repeat split.
Qed.

Lemma history_without_required_nulls_witness :
  titled
    (serve [(mkEnv 0%Z "0000abcd",
             PUT_task "task-001"
               (mkTaskUpdateBody (Valid "Renamed") Null Omitted Omitted Null));
            (mkEnv 1%Z "0000abcd", DELETE_task "task-002")] tasks_db0).
Proof.
  apply history_without_required_nulls.
  repeat constructor.
Defined.

(** X19. After any sequence of requests in which every update sends no
    [null] for a required field and is served at a clock reading that is
    not before the creation of the record it updates, every stored record
    satisfies the constraints of the [Task] model, [created_at] not after
    [updated_at] among them. *)
Theorem history_keeps_constraints (reqs : list (env * request)) :
  respectful reqs tasks_db0 ->
  valid_store (serve reqs tasks_db0) /\
  forall t, In t (Dict.values (serve reqs tasks_db0)) ->
    (created_at t <= updated_at t)%Z /\
    exists s, title t = Some s /\ (1 <= Py.len s <= 200)%Z.
Proof.
  intros Hr.
  pose proof (valid_store_serve reqs tasks_db0 valid_store_start Hr) as Hv.
  split; [exact Hv|].
  intros t Hin.
  destruct (proj1 (Forall_forall _ _) Hv t Hin)
    as ((s & Hs & Hok) & _ & _ & _ & Hc).
  split; [exact Hc|]. exists s. split; [exact Hs|].
  unfold title_ok in Hok. apply andb_true_iff in Hok as [H1 H2].
  apply Z.leb_le in H1, H2. lia.
Qed.

Lemma history_keeps_constraints_witness :
  valid_store
    (serve [(mkEnv (mk_datetime 2025 2 1 0 0 0) "0000abcd",
             POST_tasks (mkTaskCreateBody (Valid "New") Omitted Omitted
                           Omitted Omitted));
            (mkEnv (mk_datetime 2025 2 2 0 0 0) "0000abcd",
             PUT_task "task-0000abcd"
               (mkTaskUpdateBody Omitted Omitted (Valid "completed") Omitted
                  Omitted))] tasks_db0).
Proof.
  apply history_keeps_constraints.
  simpl. split; [exact I|]. split; [|exact I].
  split; [reflexivity|].
  intros old H. vm_compute in H. injection H as <-.
  vm_compute. discriminate.
Defined.

(* ===================================================================== *)
(** ** Search on a store whose records have titles *)
(* ===================================================================== *)

Lemma search_match_appears (x : string) (t : Task) :
  Spec.search_match x t = true <-> Spec.appears x t.
Proof.
  unfold Spec.search_match, Spec.appears, Spec.occurs_ci.
  rewrite orb_true_iff. split.
  - intros [H|H].
    + destruct (title t) as [s|]; [|discriminate].
      left. exists s. split; [reflexivity|]. now apply PyFacts.str_in_occurs.
    + destruct (description t) as [d|]; [|discriminate].
      right. exists d. split; [reflexivity|]. now apply PyFacts.str_in_occurs.
  - intros [(s & -> & H)|(d & -> & H)];
      [left|right]; now apply PyFacts.str_in_occurs.
Qed.

(** X21. On a store whose records all have a title, a list query with a
    search text returns, and what it returns is exact: every record of the
    page is a stored record in whose title or description the text
    appears, case ignored; and when the page starts at 0 and the limit
    covers the store, every stored record in which the text appears is in
    the page. *)
Theorem search_selects_exactly (db : Dict.t) (x : string) (limit offset : Z) :
  titled db -> (1 <= limit <= 100)%Z -> (0 <= offset)%Z ->
  exists r : TaskListResponse,
    get_tasks None None (Some x) limit offset db = (Return r, db) /\
    tl_count r = length (tl_data r) /\
    (forall t, In t (tl_data r) ->
       In t (Dict.values db) /\ Spec.appears x t) /\
    (offset = 0%Z -> (Z.of_nat (Dict.len db) <= limit)%Z ->
     forall t, In t (Dict.values db) -> Spec.appears x t ->
       In t (tl_data r)).
Proof.
  intros Ht Hl Ho. eexists.
  split; [apply get_tasks_page; [now right|exact Hl|exact Ho]|].
  cbn [tl_count tl_data]. unfold Spec.page. cbn [Spec.filter_if].
  split; [reflexivity|]. split.
  - intros t Hin. apply in_firstn, in_skipn, filter_In in Hin as [Hin Hm].
    split; [exact Hin|now apply search_match_appears].
  - intros -> Hcover t Hin Happ. cbn [Z.to_nat skipn].
    rewrite firstn_all2.
    + apply filter_In. split; [exact Hin|now apply search_match_appears].
    + pose proof (filter_length_le (Spec.search_match x) (Dict.values db)) as H.
      unfold Dict.len, Dict.values in *. rewrite length_map in H. lia.
Qed.

Lemma search_selects_exactly_witness :
  exists r : TaskListResponse,
    get_tasks None None (Some "API") 100 0 tasks_db0 = (Return r, tasks_db0) /\
    map id (tl_data r) = ["task-001"; "task-002"].
Proof.
  destruct (search_selects_exactly tasks_db0 "API" 100 0)
    as (r & Hrun & _); [apply titled_typed_start|lia|lia|].
  exists r. split; [exact Hrun|].
  vm_compute in Hrun. injection Hrun as <-. reflexivity.
Defined.

(* ===================================================================== *)
(** ** The size of the store *)
(* ===================================================================== *)

(** X20. The number of records after a request: one more after a create
    whose body is accepted and whose generated id is not in the store, one
    less after a delete of an id that is in the store, and the same after
    every other request, a create on a taken id and a refused or failed
    request included.  The health check and the statistics report that
    number. *)
Theorem size_after_a_request (db : Dict.t) (e : env) (r : request)
    (now' : datetime) :
  Dict.len (store_after (app e r) db) =
    match r with
    | POST_tasks b =>
        if negb (Spec.listed_violation b || Spec.wrong_kind b)
           && negb (Dict.contains db ("task-" ++ hex8 e))
        then S (Dict.len db) else Dict.len db
    | DELETE_task k =>
        if Dict.contains db k then Dict.len db - 1 else Dict.len db
    | _ => Dict.len db
    end /\
  answer (health_check now') (store_after (app e r) db) =
    Return (mkHealth "healthy" now' "1.0.0"
              (Dict.len (store_after (app e r) db))) /\
  exists s : Statistics,
    answer get_statistics (store_after (app e r) db) = Return s /\
    total_tasks s = Dict.len (store_after (app e r) db).
Proof.
  split; [|split; [reflexivity|]].
  - destruct r as [| |q|k|b|k b|k|]; cbn [app]; rewrite as_response_store;
      try reflexivity.
    + now rewrite list_endpoint_store.
    + now rewrite get_task_store.
    + unfold create_endpoint.
      pose proof (task_create_none b) as H.
      destruct (Validate.task_create b) as [task|].
      * destruct (Spec.listed_violation b || Spec.wrong_kind b);
          [discriminate (proj2 H eq_refl)|].
        rewrite create_task_run. cbn [negb andb].
        destruct (Dict.contains db ("task-" ++ hex8 e)) eqn:C; cbn [negb].
        -- now apply DictFacts.len_set_present.
        -- now apply DictFacts.len_set_absent.
      * now rewrite (proj1 H eq_refl).
    + unfold Dict.len. rewrite <- (length_map fst), <- (length_map fst db).
      f_equal. unfold update_endpoint.
      destruct (Validate.task_update b);
        [apply update_task_keys|reflexivity].
    + unfold store_after.
      destruct (Dict.get db k) as [old|] eqn:G.
      * assert (C : Dict.contains db k = true)
          by (apply DictFacts.contains_get; eauto).
        rewrite (delete_task_present db k old G), C. cbn [snd].
        pose proof (DictMore.len_remove_present db k C). lia.
      * apply DictFacts.absent_get in G.
        now rewrite (delete_task_absent db k G), G.
  - eexists. unfold answer. rewrite get_statistics_run. cbn [fst total_tasks].
    split; [reflexivity|]. unfold Dict.len, Dict.values. apply length_map.
Qed.
